(** * process_spending.py: merging the FY2017-FY2025 contract extracts

    A shallow embedding of [src/process_spending.py] and the properties of
    its specification.  The script is a pandas pipeline; a DataFrame is
    modelled column-major, as pandas stores it: a row count (the length of
    its RangeIndex) and an ordered association list from column labels to
    Series.  The scalar parsing routines of pandas ([to_datetime],
    [to_numeric], the missing-value markers of [read_csv]) are parameters of
    the development.  Console output, directory creation and the parquet
    export are recorded in an effect trace; exceptions stop the run and
    keep the trace produced so far. *)

From Stdlib Require Import String Ascii List ZArith Bool Arith Lia.
From Stdlib Require Import Permutation Sorted.
Import ListNotations.
Open Scope string_scope.
Open Scope list_scope.

(** ** Module constants (lines 12-38) *)

Definition EXTRACTED_DIR : string := "backups/extracted".
Definition OUTPUT_DIR : string := "data".

(** [os.path.join] on two relative POSIX components. *)
Definition path_join (a b : string) : string := (a ++ "/" ++ b)%string.

Definition OUTPUT_FILE : string :=
  path_join OUTPUT_DIR "combined_spending_2017_2025.parquet".

(** Mapping: desired column name -> actual CSV column name.  A Python dict
    keeps insertion order, so it is an association list. *)
Definition COLUMN_MAP : list (string * string) :=
  [ ("award_amount", "federal_action_obligation");
    ("action_date", "action_date");
    ("period_of_performance_start_date", "period_of_performance_start_date");
    ("naics_code", "naics_code");
    ("product_or_service_code", "product_or_service_code");
    ("recipient_uei", "recipient_uei");
    ("awarding_sub_agency_name", "awarding_sub_agency_name");
    ("type_of_contract_pricing", "type_of_contract_pricing");
    ("extent_competed", "extent_competed");
    ("primary_place_of_performance_zip_5", "primary_place_of_performance_zip_4");
    ("contract_description", "transaction_description");
    ("parent_award_agency_id", "parent_award_agency_id") ].

(** [list(COLUMN_MAP.values())] *)
Definition USE_COLS : list string := map snd COLUMN_MAP.

Definition FY_FOLDERS : list string :=
  [ "FY2017"; "FY2018"; "FY2019"; "FY2020";
    "FY2021"; "FY2022"; "FY2023"; "FY2024"; "FY2025" ].

(** The thirteen canonical fields of the data model: the keys of
    [COLUMN_MAP] and the derived [fiscal_year]. *)
Definition CANONICAL_FIELDS : list string :=
  map fst COLUMN_MAP ++ ["fiscal_year"].

(** ** Python dicts as ordered association lists *)

Section Dict.
Context {V : Type}.

Fixpoint dict_get (k : string) (d : list (string * V)) : option V :=
  match d with
  | [] => None
  | (k', v) :: d' => if String.eqb k k' then Some v else dict_get k d'
  end.

(** [d[k] = v]: an existing key keeps its position, a new key goes last. *)
Fixpoint dict_set (k : string) (v : V) (d : list (string * V))
  : list (string * V) :=
  match d with
  | [] => [(k, v)]
  | (k', v') :: d' =>
      if String.eqb k k' then (k, v) :: d' else (k', v') :: dict_set k v d'
  end.

Definition dict_keys (d : list (string * V)) : list string := map fst d.
End Dict.

(** [{v: k for k, v in COLUMN_MAP.items()}] (line 61). *)
Definition reverse_map : list (string * string) :=
  fold_left (fun acc kv => dict_set (snd kv) (fst kv) acc) COLUMN_MAP [].

Definition mem (x : string) (l : list string) : bool :=
  existsb (String.eqb x) l.

(** First occurrences, in order. *)
Fixpoint uniq (l : list string) : list string :=
  match l with
  | [] => []
  | x :: r => x :: filter (fun y => negb (String.eqb x y)) (uniq r)
  end.

Fixpoint uniqZ (l : list Z) : list Z :=
  match l with
  | [] => []
  | x :: r => x :: filter (fun y => negb (Z.eqb x y)) (uniqZ r)
  end.

Fixpoint index_of (x : string) (l : list string) : nat :=
  match l with
  | [] => 0
  | y :: r => if String.eqb x y then 0 else S (index_of x r)
  end.

(** Insertion sort by an integer key; stable, like Python's [sorted] and
    pandas' [sort_index]. *)
Section SortBy.
Context {A : Type} (key : A -> Z).

Fixpoint insert_by (a : A) (l : list A) : list A :=
  match l with
  | [] => [a]
  | b :: r => if (key a <? key b)%Z then a :: b :: r else b :: insert_by a r
  end.

Fixpoint sort_by (l : list A) : list A :=
  match l with
  | [] => []
  | a :: r => insert_by a (sort_by r)
  end.
End SortBy.

Definition sorted (l : list Z) : list Z := sort_by (fun z => z) l.

Definition countZ (k : Z) (l : list Z) : nat :=
  length (filter (Z.eqb k) l).

(** ** Values, Series and DataFrames *)

Record Timestamp := mkTimestamp { year : Z; month : Z; day : Z }.

(** A tokenised delimited-text file: the header line and the data records,
    every field as raw text. *)
Record CsvFile := mkCsv { header : list string; records : list (list string) }.

Inductive exn :=
| ValueError (msg : string)
| KeyError (key : string)
| AttributeError (msg : string)
| FileNotFoundError (path : string).

Inductive result (A : Type) :=
| Ok (a : A)
| Raise (e : exn).
Arguments Ok {A} a.
Arguments Raise {A} e.

(** Lines of console output, by the [print] call that writes them. *)
Inductive line :=
| LRule                                  (* "=" * 60 *)
| LHeading (s : string)
| LProcessing (fy : string)              (* line 99 *)
| LWarningNoCsv (fy_dir : string)        (* line 52 *)
| LReading (csv_path : string)           (* line 56 *)
| LRows (n : nat)                        (* line 102 *)
| LTotalCombined (n : nat)               (* line 111 *)
| LExported (path : string)              (* line 115 *)
| LFyCount (fy : Z) (count : nat)        (* line 125 *)
| LTotal (n : nat)                       (* line 127 *)
| LMissing (years : list Z)              (* line 134 *)
| LDownloadHint                          (* line 135 *)
| LAllPresent.                           (* line 137 *)

(** What the run reads: for a glob pattern, the matching paths in listing
    order, and the contents of a path. *)
Record Env := mkEnv {
  glob : string -> list string;
  open_csv : string -> option CsvFile
}.

(** ** A concrete instance of the parameters, for running the model *)

Module Sample.

Definition digit (c : ascii) : option Z :=
  let n := nat_of_ascii c in
  if (48 <=? n)%nat && (n <=? 57)%nat then Some (Z.of_nat (n - 48)) else None.

Fixpoint digits (s : string) (acc : Z) : option Z :=
  match s with
  | EmptyString => Some acc
  | String c r =>
      match digit c with
      | Some d => digits r (10 * acc + d)%Z
      | None => None
      end
  end.

Definition number (s : string) : option Z :=
  match s with
  | EmptyString => None
  | _ => digits s 0
  end.

(** Dates written YYYY-MM-DD. *)
Definition iso_date (s : string) : option Timestamp :=
  if (String.length s =? 10)%nat
     && String.eqb (substring 4 1 s) "-" && String.eqb (substring 7 1 s) "-"
  then
    match number (substring 0 4 s), number (substring 5 2 s),
          number (substring 8 2 s) with
    | Some y, Some m, Some d =>
        if ((1 <=? m) && (m <=? 12) && (1 <=? d) && (d <=? 31))%Z
        then Some (mkTimestamp y m d) else None
    | _, _, _ => None
    end
  else None.

(** Plain decimals: an optional sign, digits, at most one point.  The result
    is the unscaled integer and the number of decimals. *)
Fixpoint decimal_go (s : string) (dot : bool) (acc : Z) (scale ndig : nat)
  : option (Z * nat) :=
  match s with
  | EmptyString => if (ndig =? 0)%nat then None else Some (acc, scale)
  | String c r =>
      if Ascii.eqb c "." then
        if dot then None else decimal_go r true acc scale ndig
      else
        match digit c with
        | Some d => decimal_go r dot (10 * acc + d)%Z
                      (if dot then S scale else scale) (S ndig)
        | None => None
        end
  end.

Definition decimal (s : string) : option (Z * nat) :=
  match s with
  | String "-" r =>
      match decimal_go r false 0 0 0 with
      | Some (a, sc) => Some ((- a)%Z, sc)
      | None => None
      end
  | _ => decimal_go s false 0 0 0
  end.

Definition na_values (s : string) : bool :=
  mem s [EmptyString; "#N/A"; "N/A"; "NA"; "NULL"; "NaN"; "None"; "n/a";
         "nan"; "null"; "<NA>"].

Definition Num : Type := Z * nat.

Definition hdr : list string :=
  [ "contract_award_unique_key"; "federal_action_obligation"; "action_date";
    "period_of_performance_start_date"; "naics_code";
    "product_or_service_code"; "recipient_uei"; "awarding_sub_agency_name";
    "type_of_contract_pricing"; "extent_competed";
    "primary_place_of_performance_zip_4"; "transaction_description";
    "parent_award_agency_id" ].

Definition rec1 : list string :=
  [ "K1"; "1234.50"; "2016-10-01"; "2016-10-01"; "541511"; "D302"; "UEI1";
    "Navy"; "FIRM FIXED PRICE"; "FULL"; "123456789"; "software";
    "GS00" ].
Definition rec2 : list string :=
  [ "K2"; "1,234.50"; "09/30/2017"; "not a date"; "541512"; "D399"; "UEI2";
    "Army"; "TIME AND MATERIALS"; "NOT COMPETED"; EmptyString; "support";
    "GS01" ].
Definition rec3 : list string :=
  [ "K3"; "-7"; "2019-01-15"; "2018-12-01"; "541519"; "R425"; "UEI3";
    "Air Force"; "COST"; "FULL"; "2000"; "engineering"; "GS02" ].

Definition fy2017 : CsvFile := mkCsv hdr [rec1; rec2].
Definition fy2019 : CsvFile := mkCsv hdr [rec3].
(** A file with no [recipient_uei] column. *)
Definition broken : CsvFile :=
  mkCsv (filter (fun c => negb (String.eqb c "recipient_uei")) hdr) [].

Definition env_of (files : list (string * CsvFile)) : Env :=
  mkEnv (fun pattern =>
           flat_map (fun pf =>
                       if String.eqb pattern
                            (path_join (path_join EXTRACTED_DIR (fst pf)) "*.csv")
                       then [path_join (path_join EXTRACTED_DIR (fst pf)) "all.csv"]
                       else []) files)
        (fun path =>
           dict_get path
             (map (fun pf => (path_join (path_join EXTRACTED_DIR (fst pf)) "all.csv",
                              snd pf)) files)).

Definition env1 : Env := env_of [("FY2017", fy2017); ("FY2019", fy2019)].
Definition env_broken : Env := env_of [("FY2017", fy2017); ("FY2018", broken)].
Definition env_empty : Env := env_of [].

End Sample.

Section Pandas.

(** The numbers [to_numeric] produces (float64 in pandas). *)
Variable Num : Type.

(** [read_csv]'s test for a missing-value marker (the empty field, "NA",
    "nan", ...). *)
Variable is_na : string -> bool.

(** The scalar parsers behind [to_datetime] and [to_numeric]; [None] is a
    parse failure. *)
Variable parse_date : string -> option Timestamp.
Variable parse_num : string -> option Num.

Inductive value :=
| VStr (s : string)
| VNaN                      (* float nan, the missing value of object and float columns *)
| VTimestamp (d : Timestamp)
| VNaT
| VFloat (x : Num)
| VInt (z : Z)              (* a whole number: a year, a month, a 0/1 flag *)
| VBool (b : bool)
| VNA.                      (* pd.NA *)

(** [str(v)] for the values [astype(str)] does not meet in this program. *)
Variable py_str : value -> string.

Definition Series := list value.

Record DataFrame := mkDF { nrows : nat; cols : list (string * Series) }.

Definition isna (v : value) : bool :=
  match v with
  | VNaN | VNaT | VNA => true
  | _ => false
  end.

(** ** Effects *)

Inductive effect :=
| EPrint (l : line)
| EMakedirs (path : string)
| EToParquet (path : string) (df : DataFrame).

Definition M (A : Type) : Type := Env -> list effect * result A.

Definition ret {A} (a : A) : M A := fun _ => ([], Ok a).
Definition raise {A} (e : exn) : M A := fun _ => ([], Raise e).
Definition bind {A B} (m : M A) (f : A -> M B) : M B :=
  fun env =>
    match m env with
    | (t, Ok a) => let (t', r) := f a env in (t ++ t', r)
    | (t, Raise e) => (t, Raise e)
    end.
Definition emit (e : effect) : M unit := fun _ => ([e], Ok tt).
Definition print (l : line) : M unit := emit (EPrint l).
Definition ask_glob (pattern : string) : M (list string) :=
  fun env => ([], Ok (glob env pattern)).

Notation "x <- m ;; k" := (bind m (fun x => k))
  (at level 61, m at next level, right associativity).
Notation "m ;;; k" := (bind m (fun _ => k))
  (at level 61, right associativity).

(** ** The pandas operations the script calls *)

Definition read_cell (field : option string) : value :=
  match field with
  | Some t => if is_na t then VNaN else VStr t
  | None => VNaN                    (* a record shorter than the header *)
  end.

(** The column under header name [c], as [read_csv(dtype=str)] reads it. *)
Definition source_column (f : CsvFile) (c : string) : Series :=
  map (fun r => read_cell (nth_error r (index_of c (header f)))) (records f).

(** [pd.read_csv(path, usecols=..., dtype=str)].  A repeated header name is
    renamed by pandas (name.1, ...), so a name selects its first column;
    the columns come in file order. *)
Definition read_csv (path : string) (usecols : list string) : M DataFrame :=
  fun env =>
    match open_csv env path with
    | None => ([], Raise (FileNotFoundError path))
    | Some f =>
        if forallb (fun c => mem c (header f)) usecols
        then ([], Ok (mkDF (length (records f))
                       (map (fun c => (c, source_column f c))
                            (filter (fun c => mem c usecols) (uniq (header f))))))
        else ([], Raise (ValueError "Usecols do not match columns"))
    end.

(** [df.rename(columns=m)] *)
Definition rename (m : list (string * string)) (df : DataFrame) : DataFrame :=
  mkDF (nrows df)
       (map (fun cs => (match dict_get (fst cs) m with
                        | Some c' => c'
                        | None => fst cs
                        end, snd cs)) (cols df)).

(** [df[c]] *)
Definition getitem (df : DataFrame) (c : string) : M Series :=
  match dict_get c (cols df) with
  | Some s => ret s
  | None => raise (KeyError c)
  end.

(** Alignment of a Series on a RangeIndex of length [n]. *)
Definition reindex (n : nat) (s : Series) : Series :=
  firstn n s ++ repeat VNaN (n - length s).

(** [df[c] = s] *)
Definition setitem (df : DataFrame) (c : string) (s : Series) : DataFrame :=
  mkDF (nrows df) (dict_set c (reindex (nrows df) s) (cols df)).

(** [pd.to_datetime(s, errors="coerce")] on a column of text. *)
Definition to_datetime1 (v : value) : value :=
  match v with
  | VStr s => match parse_date s with
              | Some d => VTimestamp d
              | None => VNaT
              end
  | VTimestamp d => VTimestamp d
  | _ => VNaT
  end.
Definition to_datetime (s : Series) : Series := map to_datetime1 s.

(** [pd.to_numeric(s, errors="coerce")] on a column of text. *)
Definition to_numeric1 (v : value) : value :=
  match v with
  | VStr s => match parse_num s with
              | Some x => VFloat x
              | None => VNaN
              end
  | VFloat x => VFloat x
  | VInt z => VInt z
  | _ => VNaN
  end.
Definition to_numeric (s : Series) : Series := map to_numeric1 s.

(** [s.astype(str)] *)
Definition astype_str1 (v : value) : value :=
  match v with
  | VStr s => VStr s
  | VNaN => VStr "nan"
  | VNaT => VStr "NaT"
  | VNA => VStr "<NA>"
  | VBool true => VStr "True"
  | VBool false => VStr "False"
  | _ => VStr (py_str v)
  end.
Definition astype_str (s : Series) : Series := map astype_str1 s.

Definition is_str_or_na (v : value) : bool :=
  match v with
  | VStr _ | VNaN | VNA => true
  | _ => false
  end.

(** [s.str[:n]]; the accessor exists on string data only. *)
Definition str_slice1 (n : nat) (v : value) : value :=
  match v with
  | VStr s => VStr (substring 0 n s)
  | _ => v
  end.
Definition str_slice (n : nat) (s : Series) : M Series :=
  if forallb is_str_or_na s then ret (map (str_slice1 n) s)
  else raise (AttributeError "Can only use .str accessor with string values").

(** [s.replace(old, pd.NA)] *)
Definition replace_na1 (old : string) (v : value) : value :=
  match v with
  | VStr s => if String.eqb s old then VNA else v
  | _ => v
  end.
Definition replace_na (old : string) (s : Series) : Series :=
  map (replace_na1 old) s.

Definition is_datetimelike (v : value) : bool :=
  match v with
  | VTimestamp _ | VNaT => true
  | _ => false
  end.

(** [s.dt]; the accessor exists on datetime data only. *)
Definition dt (s : Series) : M Series :=
  if forallb is_datetimelike s then ret s
  else raise (AttributeError "Can only use .dt accessor with datetimelike values").

Definition dt_year1 (v : value) : value :=
  match v with VTimestamp d => VInt (year d) | _ => VNaN end.
Definition dt_month1 (v : value) : value :=
  match v with VTimestamp d => VInt (month d) | _ => VNaN end.

(** [s >= k]: a comparison with a missing value is False. *)
Definition ge1 (k : Z) (v : value) : value :=
  match v with VInt z => VBool (k <=? z)%Z | _ => VBool false end.

(** [s.astype(int)] on booleans *)
Definition astype_int1 (v : value) : value :=
  match v with
  | VBool true => VInt 1
  | VBool false => VInt 0
  | _ => v
  end.

(** [a + b] on numbers; a missing operand gives NaN. *)
Definition add1 (a b : value) : value :=
  match a, b with
  | VInt x, VInt y => VInt (x + y)
  | _, _ => VNaN
  end.

Fixpoint add_series (a b : Series) : Series :=
  match a, b with
  | x :: a', y :: b' => add1 x y :: add_series a' b'
  | _, _ => []
  end.

(** ** The script *)

(** Lines 41-44. *)
Definition compute_fiscal_year (date_series : Series) : M Series :=
  y <- dt date_series ;;
  m <- dt date_series ;;
  ret (add_series (map dt_year1 y)
                  (map astype_int1 (map (ge1 10) (map dt_month1 m)))).

(** Lines 47-86.  [None] is the skip signal. *)
Definition process_fy (fy_label : string) : M (option DataFrame) :=
  let fy_dir := path_join EXTRACTED_DIR fy_label in
  csvs <- ask_glob (path_join fy_dir "*.csv") ;;
  match csvs with
  | [] =>
      print (LWarningNoCsv fy_dir) ;;;
      ret None
  | csv_path :: _ =>
      print (LReading csv_path) ;;;
      df <- read_csv csv_path USE_COLS ;;
      let df := rename reverse_map df in
      a <- getitem df "action_date" ;;
      let df := setitem df "action_date" (to_datetime a) in
      p <- getitem df "period_of_performance_start_date" ;;
      let df := setitem df "period_of_performance_start_date" (to_datetime p) in
      w <- getitem df "award_amount" ;;
      let df := setitem df "award_amount" (to_numeric w) in
      z <- getitem df "primary_place_of_performance_zip_5" ;;
      z5 <- str_slice 5 (astype_str z) ;;
      let df := setitem df "primary_place_of_performance_zip_5"
                        (replace_na "nan" z5) in
      a' <- getitem df "action_date" ;;
      fy <- compute_fiscal_year a' ;;
      let df := setitem df "fiscal_year" fy in
      ret (Some df)
  end.

(** The loop of lines 97-103, with the accumulator [frames]. *)
Fixpoint collect_frames (labels : list string) (frames : list DataFrame)
  : M (list DataFrame) :=
  match labels with
  | [] => ret frames
  | fy :: rest =>
      print (LProcessing fy) ;;;
      df <- process_fy fy ;;
      match df with
      | Some d =>
          print (LRows (nrows d)) ;;;
          collect_frames rest (frames ++ [d])
      | None => collect_frames rest frames
      end
  end.

(** [pd.concat(frames, ignore_index=True)]: columns are matched by label,
    in order of first appearance; a frame without a label contributes NaN. *)
Definition column_or_nan (c : string) (df : DataFrame) : Series :=
  match dict_get c (cols df) with
  | Some s => s
  | None => repeat VNaN (nrows df)
  end.

Definition merge_frames (frames : list DataFrame) : DataFrame :=
  mkDF (list_sum (map nrows frames))
       (map (fun c => (c, flat_map (column_or_nan c) frames))
            (uniq (flat_map (fun df => dict_keys (cols df)) frames))).

Definition concat (frames : list DataFrame) : M DataFrame :=
  match frames with
  | [] => raise (ValueError "No objects to concatenate")
  | _ => ret (merge_frames frames)
  end.

(** The integer group keys of a column; [groupby] drops missing keys. *)
Definition group_keys (s : Series) : list Z :=
  flat_map (fun v => match v with VInt z => [z] | _ => [] end) s.

(** [df.groupby(c).size()]: one entry per distinct key, keys sorted. *)
Definition groupby_size (df : DataFrame) (c : string) : M (list (Z * nat)) :=
  s <- getitem df c ;;
  let ks := group_keys s in
  ret (map (fun k => (k, countZ k ks)) (sorted (uniqZ ks))).

Definition sort_index (s : list (Z * nat)) : list (Z * nat) := sort_by fst s.

Fixpoint print_counts (fy_counts : list (Z * nat)) : M unit :=
  match fy_counts with
  | [] => ret tt
  | (fy, count) :: rest => print (LFyCount fy count) ;;; print_counts rest
  end.

Definition memZ (x : Z) (l : list Z) : bool := existsb (Z.eqb x) l.

(** [set(range(lo, hi))] as the list of its elements. *)
Definition range_set (lo hi : Z) : list Z :=
  map (fun i => (lo + Z.of_nat i)%Z) (seq 0 (Z.to_nat (hi - lo))).

(** Lines 117-137. *)
Definition verification_summary (combined : DataFrame) : M unit :=
  print LRule ;;;
  print (LHeading "VERIFICATION: Row count per Fiscal Year") ;;;
  print LRule ;;;
  sizes <- groupby_size combined "fiscal_year" ;;
  let fy_counts := sort_index sizes in
  print_counts fy_counts ;;;
  print (LTotal (nrows combined)) ;;;
  let expected := range_set 2017 2026 in
  let actual := uniqZ (map fst fy_counts) in
  let missing := filter (fun y => negb (memZ y actual)) expected in
  match missing with
  | [] => print LAllPresent
  | _ => print (LMissing (sorted missing)) ;;; print LDownloadHint
  end.

(** Lines 89-137. *)
Definition main : M unit :=
  emit (EMakedirs OUTPUT_DIR) ;;;
  print LRule ;;;
  print (LHeading "PROCESSING VALID FISCAL YEARS") ;;;
  print LRule ;;;
  frames <- collect_frames FY_FOLDERS [] ;;
  print LRule ;;;
  print (LHeading "MERGING ALL YEARS") ;;;
  print LRule ;;;
  combined <- concat frames ;;
  print (LTotalCombined (nrows combined)) ;;;
  emit (EToParquet OUTPUT_FILE combined) ;;;
  print (LExported OUTPUT_FILE) ;;;
  verification_summary combined.

(** * Properties *)

(** ** Lists, dicts and sorting *)

Lemma mem_In (x : string) (l : list string) : mem x l = true <-> In x l.
Proof.
  unfold mem. rewrite existsb_exists. split.
  - intros [y [Hy He]]. apply String.eqb_eq in He. now subst.
  - intros H. exists x. split; [assumption | apply String.eqb_refl].
Qed.

Lemma memZ_In (x : Z) (l : list Z) : memZ x l = true <-> In x l.
Proof.
  unfold memZ. rewrite existsb_exists. split.
  - intros [y [Hy He]]. apply Z.eqb_eq in He. now subst.
  - intros H. exists x. split; [assumption | apply Z.eqb_refl].
Qed.

Lemma uniq_In (x : string) (l : list string) : In x (uniq l) <-> In x l.
Proof.
  induction l as [|y l IH]; simpl; [tauto|].
  rewrite filter_In, IH. split.
  - intros [H | [H _]]; auto.
  - intros [H | H]; auto.
    destruct (String.eqb y x) eqn:E.
    + apply String.eqb_eq in E. auto.
    + right. split; [assumption | reflexivity].
Qed.

Lemma uniq_NoDup (l : list string) : NoDup (uniq l).
Proof.
  induction l as [|y l IH]; simpl; constructor.
  - rewrite filter_In. intros [_ H]. now rewrite String.eqb_refl in H.
  - now apply NoDup_filter.
Qed.

Lemma uniqZ_In (x : Z) (l : list Z) : In x (uniqZ l) <-> In x l.
Proof.
  induction l as [|y l IH]; simpl; [tauto|].
  rewrite filter_In, IH. split.
  - intros [H | [H _]]; auto.
  - intros [H | H]; auto.
    destruct (Z.eqb y x) eqn:E.
    + apply Z.eqb_eq in E. auto.
    + right. split; [assumption | reflexivity].
Qed.

Lemma uniqZ_NoDup (l : list Z) : NoDup (uniqZ l).
Proof.
  induction l as [|y l IH]; simpl; constructor.
  - rewrite filter_In. intros [_ H]. now rewrite Z.eqb_refl in H.
  - now apply NoDup_filter.
Qed.

Section DictFacts.
Context {V : Type}.
Implicit Types (d : list (string * V)) (k : string) (v : V).

Lemma dict_get_set_eq k v d : dict_get k (dict_set k v d) = Some v.
Proof.
  induction d as [|[k' v'] d IH]; simpl.
  - now rewrite String.eqb_refl.
  - destruct (String.eqb k k') eqn:E; simpl; rewrite ?String.eqb_refl, ?E; auto.
Qed.

Lemma dict_get_set_neq k k' v d :
  k <> k' -> dict_get k (dict_set k' v d) = dict_get k d.
Proof.
  intros Hne. apply String.eqb_neq in Hne.
  induction d as [|[k2 v2] d IH]; simpl.
  - now rewrite Hne.
  - destruct (String.eqb k' k2) eqn:E; simpl.
    + apply String.eqb_eq in E. subst k2. now rewrite Hne.
    + now rewrite IH.
Qed.

Lemma dict_keys_set_in k v d :
  In k (dict_keys d) -> dict_keys (dict_set k v d) = dict_keys d.
Proof.
  unfold dict_keys.
  induction d as [|[k2 v2] d IH]; simpl; [tauto|].
  intros H. destruct (String.eqb k k2) eqn:E; simpl.
  - apply String.eqb_eq in E. now subst.
  - apply String.eqb_neq in E. destruct H as [H | H]; [congruence|].
    now rewrite IH.
Qed.

Lemma dict_keys_set_notin k v d :
  ~ In k (dict_keys d) -> dict_keys (dict_set k v d) = dict_keys d ++ [k].
Proof.
  unfold dict_keys.
  induction d as [|[k2 v2] d IH]; simpl; [reflexivity|].
  intros H. destruct (String.eqb k k2) eqn:E; simpl.
  - apply String.eqb_eq in E. subst. tauto.
  - rewrite IH; tauto.
Qed.

Lemma dict_get_In k d : In k (dict_keys d) <-> exists v, dict_get k d = Some v.
Proof.
  unfold dict_keys.
  induction d as [|[k2 v2] d IH]; simpl.
  - split; [tauto | intros [v H]; discriminate].
  - destruct (String.eqb k k2) eqn:E.
    + apply String.eqb_eq in E. subst. split; eauto.
    + apply String.eqb_neq in E. rewrite <- IH. split; [|tauto].
      intros [H | H]; [congruence | assumption].
Qed.

Lemma dict_get_tabulate (g : string -> V) k (l : list string) :
  dict_get k (map (fun c => (c, g c)) l) = if mem k l then Some (g k) else None.
Proof.
  unfold mem.
  induction l as [|c l IH]; simpl; [reflexivity|].
  destruct (String.eqb k c) eqn:E; simpl; [|assumption].
  apply String.eqb_eq in E. now subst.
Qed.

(** Lookup through a renaming that is injective on the keys present. *)
Lemma dict_get_rename (rn : string -> string) k d :
  (forall k', In k' (dict_keys d) -> rn k' = rn k -> k' = k) ->
  dict_get (rn k) (map (fun cs => (rn (fst cs), snd cs)) d) = dict_get k d.
Proof.
  unfold dict_keys.
  induction d as [|[k2 v2] d IH]; simpl; [reflexivity|].
  intros Hinj. destruct (String.eqb k k2) eqn:E.
  - apply String.eqb_eq in E. subst. now rewrite String.eqb_refl.
  - destruct (String.eqb (rn k) (rn k2)) eqn:E2.
    + apply String.eqb_eq in E2. apply String.eqb_neq in E.
      exfalso. apply E. symmetry. apply Hinj; auto.
    + apply IH. intros k' Hk'. apply Hinj. auto.
Qed.
End DictFacts.

Section SortFacts.
Context {A : Type} (key : A -> Z).

Lemma insert_by_perm (a : A) (l : list A) :
  Permutation (insert_by key a l) (a :: l).
Proof.
  induction l as [|b l IH]; simpl; [reflexivity|].
  destruct (key a <? key b)%Z; [reflexivity|].
  rewrite IH. apply perm_swap.
Qed.

Lemma sort_by_perm (l : list A) : Permutation (sort_by key l) l.
Proof.
  induction l as [|a l IH]; simpl; [reflexivity|].
  rewrite insert_by_perm. now constructor.
Qed.

Definition key_le (a b : A) : Prop := (key a <= key b)%Z.

Lemma insert_by_sorted (a : A) (l : list A) :
  StronglySorted key_le l -> StronglySorted key_le (insert_by key a l).
Proof.
  induction 1 as [|b l Hs IH Hall]; simpl.
  - repeat constructor.
  - destruct (key a <? key b)%Z eqn:E.
    + apply Z.ltb_lt in E. constructor; [now constructor|].
      constructor; [unfold key_le; lia|].
      eapply Forall_impl; [|exact Hall]. unfold key_le. intros; lia.
    + apply Z.ltb_ge in E. constructor; [assumption|].
      rewrite (Forall_forall (key_le b)). intros x Hx.
      apply (Permutation_in _ (insert_by_perm a l)) in Hx.
      destruct Hx as [<- | Hx]; [exact E|].
      rewrite Forall_forall in Hall. auto.
Qed.

Lemma sort_by_sorted (l : list A) : StronglySorted key_le (sort_by key l).
Proof.
  induction l as [|a l IH]; simpl; [constructor|].
  now apply insert_by_sorted.
Qed.

End SortFacts.

(** A sorted list without repetition is strictly ascending. *)
Lemma sorted_strict (l : list Z) :
  NoDup l -> StronglySorted Z.lt (sorted l).
Proof.
  intros Hnd.
  assert (Hnd' : NoDup (sorted l)).
  { eapply Permutation_NoDup; [|exact Hnd]. symmetry. apply sort_by_perm. }
  pose proof (sort_by_sorted (fun z => z) l) as Hs. fold (sorted l) in Hs.
  induction Hs as [|a r Hs IH Hall]; constructor.
  - apply IH. now inversion Hnd'.
  - inversion Hnd' as [|? ? Hnotin _]; subst.
    rewrite Forall_forall in *. intros x Hx.
    specialize (Hall x Hx). unfold key_le in Hall.
    assert (a <> x) by (intros ->; contradiction). lia.
Qed.

Lemma sorted_In (x : Z) (l : list Z) : In x (sorted l) <-> In x l.
Proof.
  split; apply Permutation_in; [|symmetry]; apply sort_by_perm.
Qed.

(** Sorting a list that is already in order leaves it as it is. *)
Lemma sort_by_id {A} (key : A -> Z) (l : list A) :
  StronglySorted (fun a b => key a < key b)%Z l -> sort_by key l = l.
Proof.
  induction 1 as [|a l Hs IH Hall]; simpl; [reflexivity|].
  rewrite IH. destruct l as [|b l]; simpl; [reflexivity|].
  inversion Hall; subst.
  assert (E : (key a <? key b)%Z = true) by (apply Z.ltb_lt; assumption).
  now rewrite E.
Qed.

(** ** The effect monad *)

Lemma bind_ok {A B} (m : M A) (f : A -> M B) env t a :
  m env = (t, Ok a) -> bind m f env = (t ++ fst (f a env), snd (f a env)).
Proof. unfold bind. intros ->. now destruct (f a env). Qed.

Lemma bind_raise {A B} (m : M A) (f : A -> M B) env t e :
  m env = (t, Raise e) -> bind m f env = (t, Raise e).
Proof. unfold bind. now intros ->. Qed.

Definition is_print (e : effect) : Prop :=
  match e with EPrint _ => True | _ => False end.

(** A computation that only prints. *)
Definition prints {A} (m : M A) : Prop :=
  forall env, Forall is_print (fst (m env)).

(** ** Reading and renaming *)

(** [reverse_map.get(c, c)] *)
Definition canonical_name (c : string) : string :=
  match dict_get c reverse_map with
  | Some c' => c'
  | None => c
  end.

(** The frame [read_csv] returns for a file that has the required columns. *)
Definition raw_frame (f : CsvFile) : DataFrame :=
  mkDF (length (records f))
       (map (fun c => (c, source_column f c))
            (filter (fun c => mem c USE_COLS) (uniq (header f)))).

Definition has_required (f : CsvFile) : Prop :=
  forall c, In c USE_COLS -> In c (header f).

Lemma has_required_dec (f : CsvFile) :
  forallb (fun c => mem c (header f)) USE_COLS = true <-> has_required f.
Proof.
  unfold has_required. rewrite forallb_forall.
  split; intros H c Hc; apply mem_In; auto.
Qed.

Lemma read_csv_ok env path f :
  open_csv env path = Some f -> has_required f ->
  read_csv path USE_COLS env = ([], Ok (raw_frame f)).
Proof.
  intros Ho Hr. unfold read_csv. rewrite Ho.
  apply has_required_dec in Hr. now rewrite Hr.
Qed.

Lemma read_csv_missing env path f :
  open_csv env path = Some f -> ~ has_required f ->
  read_csv path USE_COLS env =
  ([], Raise (ValueError "Usecols do not match columns")).
Proof.
  intros Ho Hr. unfold read_csv. rewrite Ho.
  destruct (forallb _ USE_COLS) eqn:E; [|reflexivity].
  apply has_required_dec in E. contradiction.
Qed.

Lemma source_column_length (f : CsvFile) (c : string) :
  length (source_column f c) = length (records f).
Proof. unfold source_column. apply length_map. Qed.

Lemma raw_frame_keys (f : CsvFile) :
  dict_keys (cols (raw_frame f)) =
  filter (fun c => mem c USE_COLS) (uniq (header f)).
Proof.
  unfold raw_frame, dict_keys. simpl. rewrite map_map. simpl. apply map_id.
Qed.

Lemma raw_frame_keys_perm (f : CsvFile) :
  has_required f -> Permutation (dict_keys (cols (raw_frame f))) USE_COLS.
Proof.
  intros Hr. rewrite raw_frame_keys. apply NoDup_Permutation.
  - apply NoDup_filter, uniq_NoDup.
  - unfold USE_COLS, COLUMN_MAP. simpl.
    repeat (constructor; [simpl; intuition discriminate|]). constructor.
  - intros c. rewrite filter_In, uniq_In, mem_In. split; [tauto|].
    intros Hc. split; auto.
Qed.

Lemma canonical_name_inj (a b : string) :
  In a USE_COLS -> In b USE_COLS ->
  canonical_name a = canonical_name b -> a = b.
Proof.
  intros Ha Hb E.
  assert (Hinv : forall c, In c USE_COLS ->
            dict_get (canonical_name c) COLUMN_MAP = Some c).
  { intros c Hc. unfold USE_COLS, COLUMN_MAP in Hc. simpl in Hc.
    repeat (destruct Hc as [<- | Hc]; [reflexivity|]). destruct Hc. }
  pose proof (Hinv a Ha) as H1. pose proof (Hinv b Hb) as H2.
  rewrite E in H1. congruence.
Qed.

Lemma renamed_get (f : CsvFile) (c : string) :
  has_required f -> In c USE_COLS ->
  dict_get (canonical_name c) (cols (rename reverse_map (raw_frame f))) =
  Some (source_column f c).
Proof.
  intros Hr Hc. unfold rename.
  change (cols (mkDF ?n ?l)) with l.
  change (map (fun cs : string * Series => (match dict_get (fst cs) reverse_map with
                         | Some c' => c'
                         | None => fst cs
                         end, snd cs)) (cols (raw_frame f)))
    with (map (fun cs : string * Series => (canonical_name (fst cs), snd cs))
              (cols (raw_frame f))).
  rewrite dict_get_rename.
  - unfold raw_frame. change (cols (mkDF ?n ?l)) with l.
    rewrite dict_get_tabulate.
    assert (E : mem c (filter (fun c => mem c USE_COLS) (uniq (header f))) = true).
    { apply mem_In. rewrite filter_In, uniq_In, mem_In. auto. }
    now rewrite E.
  - intros k' Hk' E. apply canonical_name_inj; auto.
    rewrite raw_frame_keys in Hk'. apply filter_In in Hk'.
    now apply mem_In.
Qed.

Lemma renamed_keys (f : CsvFile) :
  dict_keys (cols (rename reverse_map (raw_frame f))) =
  map canonical_name (dict_keys (cols (raw_frame f))).
Proof.
  unfold rename, dict_keys. simpl. rewrite !map_map. reflexivity.
Qed.

(** ** Cleaning one partition *)

(** Lines 41-44 on one row. *)
Definition fiscal_year1 (v : value) : value :=
  add1 (dt_year1 v) (astype_int1 (ge1 10 (dt_month1 v))).

(** Lines 76-81 on one row. *)
Definition zip5_1 (v : value) : value :=
  replace_na1 "nan" (str_slice1 5 (astype_str1 v)).

(** The frame [process_fy] returns for a file that has the required
    columns: the five assignments of lines 65-84 on the renamed frame. *)
Definition cleaned (f : CsvFile) : DataFrame :=
  let a := to_datetime (source_column f "action_date") in
  let df := rename reverse_map (raw_frame f) in
  let df := setitem df "action_date" a in
  let df := setitem df "period_of_performance_start_date"
              (to_datetime (source_column f "period_of_performance_start_date")) in
  let df := setitem df "award_amount"
              (to_numeric (source_column f "federal_action_obligation")) in
  let df := setitem df "primary_place_of_performance_zip_5"
              (map zip5_1 (source_column f "primary_place_of_performance_zip_4")) in
  setitem df "fiscal_year" (map fiscal_year1 a).

Lemma reindex_id (n : nat) (s : Series) : length s = n -> reindex n s = s.
Proof.
  intros <-. unfold reindex.
  now rewrite firstn_all, Nat.sub_diag, app_nil_r.
Qed.

Lemma reindex_length (n : nat) (s : Series) : length (reindex n s) = n.
Proof.
  unfold reindex. rewrite length_app, length_firstn, repeat_length. lia.
Qed.

Lemma getitem_ok df c s env :
  dict_get c (cols df) = Some s -> getitem df c env = ([], Ok s).
Proof. unfold getitem. now intros ->. Qed.

Lemma add_series_map (g h : value -> value) (l : Series) :
  add_series (map g l) (map h l) = map (fun v => add1 (g v) (h v)) l.
Proof. induction l as [|v l IH]; simpl; [reflexivity | now rewrite IH]. Qed.

Lemma to_datetime_datetimelike (s : Series) :
  forallb is_datetimelike (to_datetime s) = true.
Proof.
  unfold to_datetime. rewrite forallb_forall. intros v Hv.
  apply in_map_iff in Hv. destruct Hv as [u [<- _]].
  destruct u; simpl; try reflexivity. now destruct (parse_date s0).
Qed.

Lemma compute_fiscal_year_ok (s : Series) env :
  forallb is_datetimelike s = true ->
  compute_fiscal_year s env = ([], Ok (map fiscal_year1 s)).
Proof.
  intros H. unfold compute_fiscal_year, bind, dt. rewrite H. simpl.
  unfold ret. rewrite !map_map, add_series_map. reflexivity.
Qed.

Lemma astype_str_strings (s : Series) :
  forallb is_str_or_na (astype_str s) = true.
Proof.
  unfold astype_str. rewrite forallb_forall. intros v Hv.
  apply in_map_iff in Hv. destruct Hv as [u [<- _]].
  destruct u; try reflexivity. now destruct b.
Qed.

Lemma zip5_ok (s : Series) env :
  str_slice 5 (astype_str s) env =
  ([], Ok (map (fun v => str_slice1 5 (astype_str1 v)) s)).
Proof.
  unfold str_slice. rewrite astype_str_strings. unfold ret, astype_str.
  now rewrite map_map.
Qed.

Definition csv_pattern (fy_label : string) : string :=
  path_join (path_join EXTRACTED_DIR fy_label) "*.csv".

Lemma in_use_cols_action_date : In "action_date" USE_COLS.
Proof. simpl. tauto. Qed.
Lemma in_use_cols_start_date : In "period_of_performance_start_date" USE_COLS.
Proof. simpl. tauto. Qed.
Lemma in_use_cols_obligation : In "federal_action_obligation" USE_COLS.
Proof. simpl. tauto. Qed.
Lemma in_use_cols_zip_4 : In "primary_place_of_performance_zip_4" USE_COLS.
Proof. simpl. tauto. Qed.

Ltac dict_simpl :=
  repeat (rewrite dict_get_set_eq || rewrite dict_get_set_neq by discriminate).

Lemma getitem_setitem_eq df c s :
  getitem (setitem df c s) c = ret (reindex (nrows df) s).
Proof. unfold getitem, setitem. simpl. now rewrite dict_get_set_eq. Qed.

Lemma getitem_setitem_neq df c c' s :
  c <> c' -> getitem (setitem df c' s) c = getitem df c.
Proof.
  intros H. unfold getitem, setitem. simpl. now rewrite dict_get_set_neq.
Qed.

Lemma process_fy_ok env fy path rest f :
  glob env (csv_pattern fy) = path :: rest ->
  open_csv env path = Some f ->
  has_required f ->
  process_fy fy env = ([EPrint (LReading path)], Ok (Some (cleaned f))).
Proof.
  intros Hg Ho Hr. unfold process_fy. cbv zeta.
  fold (csv_pattern fy).
  unfold bind at 1. unfold ask_glob. rewrite Hg.
  rewrite (bind_ok _ _ env [EPrint (LReading path)] tt) by reflexivity.
  rewrite (bind_ok _ _ env [] (raw_frame f)) by (now apply read_csv_ok).
  rewrite (bind_ok _ _ env [] (source_column f "action_date"))
    by (apply getitem_ok, (renamed_get f _ Hr in_use_cols_action_date)).
  rewrite getitem_setitem_neq by discriminate.
  rewrite (bind_ok _ _ env [] (source_column f "period_of_performance_start_date"))
    by (apply getitem_ok, (renamed_get f _ Hr in_use_cols_start_date)).
  rewrite !getitem_setitem_neq by discriminate.
  rewrite (bind_ok _ _ env [] (source_column f "federal_action_obligation"))
    by (apply getitem_ok, (renamed_get f _ Hr in_use_cols_obligation)).
  rewrite !getitem_setitem_neq by discriminate.
  rewrite (bind_ok _ _ env [] (source_column f "primary_place_of_performance_zip_4"))
    by (apply getitem_ok, (renamed_get f _ Hr in_use_cols_zip_4)).
  rewrite (bind_ok _ _ env [] _ (zip5_ok _ env)).
  rewrite !getitem_setitem_neq by discriminate.
  rewrite getitem_setitem_eq.
  rewrite reindex_id
    by (unfold to_datetime; rewrite length_map; apply source_column_length).
  rewrite (bind_ok _ _ env [] (to_datetime (source_column f "action_date")))
    by reflexivity.
  rewrite (bind_ok _ _ env [] _
             (compute_fiscal_year_ok _ env (to_datetime_datetimelike _))).
  unfold replace_na. rewrite map_map. reflexivity.
Qed.

Lemma process_fy_skip env fy :
  glob env (csv_pattern fy) = [] ->
  process_fy fy env =
  ([EPrint (LWarningNoCsv (path_join EXTRACTED_DIR fy))], Ok None).
Proof.
  intros Hg. unfold process_fy. cbv zeta. fold (csv_pattern fy).
  unfold bind at 1. unfold ask_glob. now rewrite Hg.
Qed.

Lemma process_fy_unreadable env fy path rest :
  glob env (csv_pattern fy) = path :: rest ->
  open_csv env path = None ->
  process_fy fy env =
  ([EPrint (LReading path)], Raise (FileNotFoundError path)).
Proof.
  intros Hg Ho. unfold process_fy. cbv zeta. fold (csv_pattern fy).
  unfold bind at 1. unfold ask_glob. rewrite Hg.
  rewrite (bind_ok _ _ env [EPrint (LReading path)] tt) by reflexivity.
  rewrite (bind_raise _ _ env [] (FileNotFoundError path)); [reflexivity|].
  unfold read_csv. now rewrite Ho.
Qed.

Lemma process_fy_missing env fy path rest f :
  glob env (csv_pattern fy) = path :: rest ->
  open_csv env path = Some f ->
  ~ has_required f ->
  process_fy fy env =
  ([EPrint (LReading path)],
   Raise (ValueError "Usecols do not match columns")).
Proof.
  intros Hg Ho Hr. unfold process_fy. cbv zeta. fold (csv_pattern fy).
  unfold bind at 1. unfold ask_glob. rewrite Hg.
  rewrite (bind_ok _ _ env [EPrint (LReading path)] tt) by reflexivity.
  rewrite (bind_raise _ _ env [] (ValueError "Usecols do not match columns"));
    [reflexivity|].
  exact (read_csv_missing env path f Ho Hr).
Qed.

(** The file [process_fy] reads for a label: the first match of the glob. *)
Definition reads (env : Env) (fy : string) (path : string) (f : CsvFile) : Prop :=
  exists rest, glob env (csv_pattern fy) = path :: rest /\
               open_csv env path = Some f.

(** The four ways [process_fy] can end. *)
Lemma process_fy_cases env fy :
  (glob env (csv_pattern fy) = [] /\
   process_fy fy env =
   ([EPrint (LWarningNoCsv (path_join EXTRACTED_DIR fy))], Ok None)) \/
  (exists path f, reads env fy path f /\ has_required f /\
     process_fy fy env = ([EPrint (LReading path)], Ok (Some (cleaned f)))) \/
  (exists path f, reads env fy path f /\ ~ has_required f /\
     process_fy fy env =
     ([EPrint (LReading path)],
      Raise (ValueError "Usecols do not match columns"))) \/
  (exists path rest, glob env (csv_pattern fy) = path :: rest /\
     open_csv env path = None /\
     process_fy fy env =
     ([EPrint (LReading path)], Raise (FileNotFoundError path))).
Proof.
  destruct (glob env (csv_pattern fy)) as [|path rest] eqn:Hg.
  - left. split; [reflexivity | now apply process_fy_skip].
  - right. destruct (open_csv env path) as [f|] eqn:Ho.
    + destruct (forallb (fun c => mem c (header f)) USE_COLS) eqn:E.
      * left. apply has_required_dec in E. exists path, f.
        split; [now exists rest|]. split; [assumption|].
        eapply process_fy_ok; eauto.
      * right; left. exists path, f.
        assert (Hn : ~ has_required f).
        { intros H. apply has_required_dec in H. congruence. }
        split; [now exists rest|]. split; [assumption|].
        eapply process_fy_missing; eauto.
    + right; right. exists path, rest. split; [reflexivity|].
      split; [assumption|]. eapply process_fy_unreadable; eauto.
Qed.

Lemma process_fy_inv env fy t df :
  process_fy fy env = (t, Ok (Some df)) ->
  exists path f, reads env fy path f /\ has_required f /\
                 df = cleaned f /\ t = [EPrint (LReading path)].
Proof.
  intros H.
  destruct (process_fy_cases env fy)
    as [[_ E] | [(path & f & Hrd & Hr & E) | [(path & f & _ & _ & E)
       | (path & rest & _ & _ & E)]]];
    rewrite E in H; inversion H; subst.
  exists path, f. auto.
Qed.

Lemma process_fy_prints fy : prints (process_fy fy).
Proof.
  intros env.
  destruct (process_fy_cases env fy)
    as [[_ E] | [(path & f & _ & _ & E) | [(path & f & _ & _ & E)
       | (path & rest & _ & _ & E)]]];
    rewrite E; repeat constructor.
Qed.

(** ** The cleaned frame *)

Lemma cleaned_nrows (f : CsvFile) : nrows (cleaned f) = length (records f).
Proof. reflexivity. Qed.

Lemma length_to_datetime (s : Series) : length (to_datetime s) = length s.
Proof. apply length_map. Qed.


(** Every column is as long as the index. *)
Definition well_formed (df : DataFrame) : Prop :=
  Forall (fun cs => length (snd cs) = nrows df) (cols df).

Lemma dict_set_Forall {V} (P : string * V -> Prop) k v (d : list (string * V)) :
  Forall P d -> P (k, v) -> Forall P (dict_set k v d).
Proof.
  intros Hd Hk. induction Hd as [|[k' v'] d Hx Hd IH]; simpl.
  - now constructor.
  - destruct (String.eqb k k'); constructor; auto.
Qed.

Lemma setitem_well_formed df c s :
  well_formed df -> well_formed (setitem df c s).
Proof.
  unfold well_formed, setitem. simpl. intros H.
  apply dict_set_Forall; [assumption|]. simpl. apply reindex_length.
Qed.

Lemma setitem_keys_in df c s :
  In c (dict_keys (cols df)) ->
  dict_keys (cols (setitem df c s)) = dict_keys (cols df).
Proof. intros H. unfold setitem. simpl. now apply dict_keys_set_in. Qed.

Lemma setitem_keys_notin df c s :
  ~ In c (dict_keys (cols df)) ->
  dict_keys (cols (setitem df c s)) = dict_keys (cols df) ++ [c].
Proof. intros H. unfold setitem. simpl. now apply dict_keys_set_notin. Qed.

Lemma raw_frame_well_formed f : well_formed (raw_frame f).
Proof.
  unfold well_formed, raw_frame. simpl. rewrite Forall_map.
  rewrite Forall_forall. intros c _. simpl. apply source_column_length.
Qed.

Lemma rename_well_formed m df : well_formed df -> well_formed (rename m df).
Proof.
  unfold well_formed, rename. simpl. rewrite Forall_map. simpl. auto.
Qed.

Lemma cleaned_well_formed f : well_formed (cleaned f).
Proof.
  unfold cleaned. cbv zeta.
  repeat apply setitem_well_formed.
  apply rename_well_formed, raw_frame_well_formed.
Qed.

Lemma renamed_keys_perm (f : CsvFile) :
  has_required f ->
  Permutation (dict_keys (cols (rename reverse_map (raw_frame f))))
              (map fst COLUMN_MAP).
Proof.
  intros Hr. rewrite renamed_keys.
  change (map fst COLUMN_MAP) with (map canonical_name USE_COLS).
  apply Permutation_map, raw_frame_keys_perm, Hr.
Qed.

Section Cleaned.
Variable f : CsvFile.
Hypothesis Hreq : has_required f.

Lemma renamed_has (c : string) :
  In c (map fst COLUMN_MAP) ->
  In c (dict_keys (cols (rename reverse_map (raw_frame f)))).
Proof.
  apply Permutation_in. symmetry. now apply renamed_keys_perm.
Qed.

Lemma cleaned_keys :
  dict_keys (cols (cleaned f)) =
  dict_keys (cols (rename reverse_map (raw_frame f))) ++ ["fiscal_year"].
Proof.
  unfold cleaned. cbv zeta.
  set (d0 := rename reverse_map (raw_frame f)).
  set (d1 := setitem d0 "action_date" _).
  set (d2 := setitem d1 "period_of_performance_start_date" _).
  set (d3 := setitem d2 "award_amount" _).
  set (d4 := setitem d3 "primary_place_of_performance_zip_5" _).
  assert (K1 : dict_keys (cols d1) = dict_keys (cols d0))
    by (apply setitem_keys_in, renamed_has; simpl; tauto).
  assert (K2 : dict_keys (cols d2) = dict_keys (cols d0))
    by (unfold d2; rewrite setitem_keys_in
          by (rewrite K1; apply renamed_has; simpl; tauto); exact K1).
  assert (K3 : dict_keys (cols d3) = dict_keys (cols d0))
    by (unfold d3; rewrite setitem_keys_in
          by (rewrite K2; apply renamed_has; simpl; tauto); exact K2).
  assert (K4 : dict_keys (cols d4) = dict_keys (cols d0))
    by (unfold d4; rewrite setitem_keys_in
          by (rewrite K3; apply renamed_has; simpl; tauto); exact K3).
  rewrite setitem_keys_notin; [now rewrite K4|].
  rewrite K4. intros H.
  apply (Permutation_in _ (renamed_keys_perm f Hreq)) in H.
  simpl in H. intuition discriminate.
Qed.

Lemma cleaned_keys_perm :
  Permutation (dict_keys (cols (cleaned f))) CANONICAL_FIELDS.
Proof.
  rewrite cleaned_keys. unfold CANONICAL_FIELDS.
  apply Permutation_app_tail. now apply renamed_keys_perm.
Qed.

Lemma cleaned_action_date :
  dict_get "action_date" (cols (cleaned f)) =
  Some (to_datetime (source_column f "action_date")).
Proof.
  unfold cleaned, setitem. simpl cols. simpl nrows. dict_simpl.
  now rewrite reindex_id
    by (rewrite length_to_datetime; apply source_column_length).
Qed.



Lemma cleaned_zip_5 :
  dict_get "primary_place_of_performance_zip_5" (cols (cleaned f)) =
  Some (map zip5_1 (source_column f "primary_place_of_performance_zip_4")).
Proof.
  unfold cleaned, setitem. simpl cols. simpl nrows. dict_simpl.
  now rewrite reindex_id
    by (rewrite length_map; apply source_column_length).
Qed.

Lemma cleaned_fiscal_year :
  dict_get "fiscal_year" (cols (cleaned f)) =
  Some (map fiscal_year1 (to_datetime (source_column f "action_date"))).
Proof.
  unfold cleaned, setitem. simpl cols. simpl nrows. dict_simpl.
  now rewrite reindex_id
    by (rewrite length_map, length_to_datetime; apply source_column_length).
Qed.
End Cleaned.


(** ** The partition loop *)

(** The frames of the partitions [process_fy] cleans, in label order. *)
Definition partition_frames (env : Env) (labels : list string)
  : list DataFrame :=
  flat_map (fun fy => match snd (process_fy fy env) with
                      | Ok (Some d) => [d]
                      | _ => []
                      end) labels.

Lemma collect_frames_spec (labels : list string) :
  forall (acc : list DataFrame) (env : Env) t r,
    collect_frames labels acc env = (t, r) ->
    Forall is_print t /\
    match r with
    | Ok frames =>
        frames = acc ++ partition_frames env labels /\
        forall fy, In fy labels -> forall e, snd (process_fy fy env) <> Raise e
    | Raise e =>
        exists fy, In fy labels /\ snd (process_fy fy env) = Raise e
    end.
Proof.
  induction labels as [|fy rest IH]; intros acc env t r H.
  - inversion H; subst. split; [constructor|].
    split; [now rewrite app_nil_r | intros fy []].
  - cbn [collect_frames] in H.
    rewrite (bind_ok _ _ env [EPrint (LProcessing fy)] tt) in H by reflexivity.
    pose proof (process_fy_prints fy env) as Hpr.
    destruct (process_fy fy env) as [tp [[d|]|e]] eqn:Hp; simpl in Hpr.
    + rewrite (bind_ok _ _ env tp (Some d) Hp) in H.
      rewrite (bind_ok _ _ env [EPrint (LRows (nrows d))] tt) in H by reflexivity.
      destruct (collect_frames rest (acc ++ [d]) env) as [t' r'] eqn:Hc.
      destruct (IH _ _ _ _ Hc) as [Ht' Hr']. simpl in H. injection H as <- <-.
      split.
      { constructor; [exact I|]. apply Forall_app. split; [assumption|].
        constructor; [exact I | assumption]. }
      destruct r' as [frames|e].
      * destruct Hr' as [-> Hno]. split.
        { unfold partition_frames. simpl. rewrite Hp. simpl.
          now rewrite <- app_assoc. }
        intros fy' [<- | Hin] e; [rewrite Hp; discriminate | now apply Hno].
      * destruct Hr' as [fy' [Hin He]]. exists fy'. split; [now right | assumption].
    + rewrite (bind_ok _ _ env tp None Hp) in H.
      destruct (collect_frames rest acc env) as [t' r'] eqn:Hc.
      destruct (IH _ _ _ _ Hc) as [Ht' Hr']. simpl in H. injection H as <- <-.
      split.
      { constructor; [exact I|]. apply Forall_app. now split. }
      destruct r' as [frames|e].
      * destruct Hr' as [-> Hno]. split.
        { unfold partition_frames. simpl. now rewrite Hp. }
        intros fy' [<- | Hin] e; [rewrite Hp; discriminate | now apply Hno].
      * destruct Hr' as [fy' [Hin He]]. exists fy'. split; [now right | assumption].
    + rewrite (bind_raise _ _ env tp e Hp) in H. injection H as <- <-.
      split.
      { constructor; [exact I | assumption]. }
      exists fy. split; [now left | now rewrite Hp].
Qed.

Definition is_cleaned (d : DataFrame) : Prop :=
  exists f, has_required f /\ d = cleaned f.

Lemma partition_frames_cleaned env labels :
  Forall is_cleaned (partition_frames env labels).
Proof.
  unfold partition_frames. induction labels as [|fy rest IH]; simpl.
  - constructor.
  - apply Forall_app. split; [|assumption].
    destruct (process_fy fy env) as [tp [[d|]|e]] eqn:Hp; simpl;
      try constructor; [|constructor].
    apply process_fy_inv in Hp. destruct Hp as (path & f & _ & Hr & -> & _).
    now exists f.
Qed.

(** ** The run *)

Definition preamble : list effect :=
  [ EMakedirs OUTPUT_DIR; EPrint LRule;
    EPrint (LHeading "PROCESSING VALID FISCAL YEARS"); EPrint LRule ].

Definition merge_banner : list effect :=
  [ EPrint LRule; EPrint (LHeading "MERGING ALL YEARS"); EPrint LRule ].

Definition export_effects (combined : DataFrame) : list effect :=
  [ EPrint (LTotalCombined (nrows combined));
    EToParquet OUTPUT_FILE combined;
    EPrint (LExported OUTPUT_FILE) ].

Lemma concat_trace frames env : fst (concat frames env) = [].
Proof. now destruct frames. Qed.

Lemma main_unfold env :
  main env =
  match collect_frames FY_FOLDERS [] env with
  | (t1, Raise e) => (preamble ++ t1, Raise e)
  | (t1, Ok frames) =>
      match snd (concat frames env) with
      | Raise e => (preamble ++ t1 ++ merge_banner, Raise e)
      | Ok combined =>
          (preamble ++ t1 ++ merge_banner ++ export_effects combined
             ++ fst (verification_summary combined env),
           snd (verification_summary combined env))
      end
  end.
Proof.
  unfold main.
  rewrite (bind_ok _ _ env [EMakedirs OUTPUT_DIR] tt) by reflexivity.
  rewrite (bind_ok _ _ env [EPrint LRule] tt) by reflexivity.
  rewrite (bind_ok _ _ env [EPrint (LHeading "PROCESSING VALID FISCAL YEARS")] tt)
    by reflexivity.
  rewrite (bind_ok _ _ env [EPrint LRule] tt) by reflexivity.
  destruct (collect_frames FY_FOLDERS [] env) as [t1 [frames|e]] eqn:Hc.
  - rewrite (bind_ok _ _ env t1 frames Hc).
    rewrite (bind_ok _ _ env [EPrint LRule] tt) by reflexivity.
    rewrite (bind_ok _ _ env [EPrint (LHeading "MERGING ALL YEARS")] tt)
      by reflexivity.
    rewrite (bind_ok _ _ env [EPrint LRule] tt) by reflexivity.
    pose proof (concat_trace frames env) as Ht.
    destruct (concat frames env) as [tc [combined|e]] eqn:Hcc;
      simpl in Ht; subst tc; simpl snd.
    + rewrite (bind_ok _ _ env [] combined Hcc).
      rewrite (bind_ok _ _ env [EPrint (LTotalCombined (nrows combined))] tt)
        by reflexivity.
      rewrite (bind_ok _ _ env [EToParquet OUTPUT_FILE combined] tt)
        by reflexivity.
      rewrite (bind_ok _ _ env [EPrint (LExported OUTPUT_FILE)] tt)
        by reflexivity.
      reflexivity.
    + rewrite (bind_raise _ _ env [] e Hcc).
      reflexivity.
  - rewrite (bind_raise _ _ env t1 e Hc). reflexivity.
Qed.

(** ** Concatenation *)

Lemma dict_get_In_pair {V} (k : string) (v : V) (d : list (string * V)) :
  dict_get k d = Some v -> In (k, v) d.
Proof.
  induction d as [|[k' v'] d IH]; simpl; [discriminate|].
  destruct (String.eqb k k') eqn:E.
  - apply String.eqb_eq in E. intros [= ->]. subst. now left.
  - intros H. right. auto.
Qed.

Lemma column_or_nan_length (c : string) (d : DataFrame) :
  well_formed d -> length (column_or_nan c d) = nrows d.
Proof.
  intros Hwf. unfold column_or_nan.
  destruct (dict_get c (cols d)) as [s|] eqn:E.
  - apply dict_get_In_pair in E. unfold well_formed in Hwf.
    rewrite Forall_forall in Hwf. exact (Hwf _ E).
  - apply repeat_length.
Qed.

Lemma flat_map_length_sum {A B} (g : A -> list B) (n : A -> nat) (l : list A) :
  Forall (fun a => length (g a) = n a) l ->
  length (flat_map g l) = list_sum (map n l).
Proof.
  induction 1 as [|a l Ha _ IH]; simpl; [reflexivity|].
  now rewrite length_app, Ha, IH.
Qed.

Lemma flat_map_map_comm {A B C} (g : B -> C) (h : A -> list B)
      (h' : A -> list C) (l : list A) :
  Forall (fun a => h' a = map g (h a)) l ->
  flat_map h' l = map g (flat_map h l).
Proof.
  induction 1 as [|a l Ha _ IH]; simpl; [reflexivity|].
  now rewrite map_app, Ha, IH.
Qed.

Lemma is_cleaned_well_formed d : is_cleaned d -> well_formed d.
Proof. intros [f [_ ->]]. apply cleaned_well_formed. Qed.

Lemma is_cleaned_keys d :
  is_cleaned d -> Permutation (dict_keys (cols d)) CANONICAL_FIELDS.
Proof. intros [f [Hr ->]]. now apply cleaned_keys_perm. Qed.

Section Merge.
Variable frames : list DataFrame.
Hypothesis Hne : frames <> [].
Hypothesis Hcl : Forall is_cleaned frames.

Lemma merge_frames_keys :
  dict_keys (cols (merge_frames frames)) =
  uniq (flat_map (fun df => dict_keys (cols df)) frames).
Proof.
  unfold merge_frames, dict_keys. cbn [cols]. rewrite map_map. cbn [fst].
  apply map_id.
Qed.

Lemma merge_frames_labels (c : string) :
  In c (dict_keys (cols (merge_frames frames))) <-> In c CANONICAL_FIELDS.
Proof.
  rewrite merge_frames_keys, uniq_In, in_flat_map. split.
  - intros [d [Hd Hc]]. rewrite Forall_forall in Hcl.
    eapply Permutation_in; [apply is_cleaned_keys, Hcl, Hd | exact Hc].
  - intros Hc. destruct frames as [|d rest]; [congruence|].
    exists d. split; [now left|]. inversion Hcl; subst.
    eapply Permutation_in; [symmetry; apply is_cleaned_keys; eassumption|].
    exact Hc.
Qed.

Lemma merge_frames_keys_perm :
  Permutation (dict_keys (cols (merge_frames frames))) CANONICAL_FIELDS.
Proof.
  apply NoDup_Permutation.
  - rewrite merge_frames_keys. apply uniq_NoDup.
  - unfold CANONICAL_FIELDS, COLUMN_MAP. simpl.
    repeat (constructor; [simpl; intuition discriminate|]). constructor.
  - apply merge_frames_labels.
Qed.

Lemma merge_frames_get (c : string) :
  In c CANONICAL_FIELDS ->
  dict_get c (cols (merge_frames frames)) =
  Some (flat_map (column_or_nan c) frames).
Proof.
  intros Hc. apply merge_frames_labels in Hc.
  rewrite merge_frames_keys in Hc. apply mem_In in Hc.
  unfold merge_frames. cbn [cols].
  rewrite dict_get_tabulate. now rewrite Hc.
Qed.

Lemma merge_frames_well_formed : well_formed (merge_frames frames).
Proof.
  unfold well_formed, merge_frames. simpl. rewrite Forall_map.
  rewrite Forall_forall. intros c _. simpl.
  apply flat_map_length_sum. eapply Forall_impl; [|exact Hcl].
  intros d Hd. apply column_or_nan_length, is_cleaned_well_formed, Hd.
Qed.

(** In the combined frame too, [fiscal_year] is the image of [action_date]. *)
Lemma merge_frames_fiscal_year :
  flat_map (column_or_nan "fiscal_year") frames =
  map fiscal_year1 (flat_map (column_or_nan "action_date") frames).
Proof.
  apply flat_map_map_comm.
  eapply Forall_impl; [|exact Hcl]. intros d [f [Hr ->]].
  unfold column_or_nan.
  now rewrite cleaned_fiscal_year, cleaned_action_date.
Qed.

Lemma merge_frames_action_date_datetimelike :
  forallb is_datetimelike (flat_map (column_or_nan "action_date") frames) = true.
Proof.
  rewrite forallb_forall. intros v Hv. apply in_flat_map in Hv.
  destruct Hv as [d [Hd Hv]]. rewrite Forall_forall in Hcl.
  destruct (Hcl d Hd) as [f [Hr ->]].
  unfold column_or_nan in Hv. rewrite cleaned_action_date in Hv.
  pose proof (to_datetime_datetimelike (source_column f "action_date")) as H.
  rewrite forallb_forall in H. auto.
Qed.
End Merge.

(** ** Group counts *)

(** The number of rows of a column whose value is the year [y]. *)
Definition fy_rows (s : Series) (y : Z) : nat :=
  length (filter (fun v => match v with VInt z => Z.eqb y z | _ => false end) s).

(** The table [groupby("fiscal_year").size().sort_index()] of a column. *)
Definition fy_counts_of (s : Series) : list (Z * nat) :=
  map (fun k => (k, countZ k (group_keys s))) (sorted (uniqZ (group_keys s))).

(** [expected - actual] (line 132) for a fiscal-year column. *)
Definition missing_of (s : Series) : list Z :=
  filter (fun y => negb (memZ y (uniqZ (map fst (fy_counts_of s)))))
         (range_set 2017 2026).

Definition count_effects (counts : list (Z * nat)) : list effect :=
  map (fun yn => EPrint (LFyCount (fst yn) (snd yn))) counts.

Definition advisory (missing : list Z) : list effect :=
  match missing with
  | [] => [EPrint LAllPresent]
  | _ => [EPrint (LMissing (sorted missing)); EPrint LDownloadHint]
  end.

Definition summary_banner : list effect :=
  [ EPrint LRule; EPrint (LHeading "VERIFICATION: Row count per Fiscal Year");
    EPrint LRule ].

Lemma countZ_group_keys (s : Series) (y : Z) :
  countZ y (group_keys s) = fy_rows s y.
Proof.
  unfold countZ, fy_rows, group_keys.
  induction s as [|v s IH]; simpl; [reflexivity|].
  destruct v; simpl; try assumption.
  destruct (Z.eqb y z); simpl; now rewrite IH.
Qed.

Lemma group_keys_In (s : Series) (y : Z) :
  In y (group_keys s) <-> In (VInt y) s.
Proof.
  unfold group_keys. rewrite in_flat_map. split.
  - intros [v [Hv Hy]]. destruct v; simpl in Hy; try tauto.
    destruct Hy as [<- | []]. assumption.
  - intros H. exists (VInt y). split; [assumption | now left].
Qed.

Lemma countZ_pos (l : list Z) (k : Z) : In k l <-> 0 < countZ k l.
Proof.
  unfold countZ. induction l as [|x l IH]; simpl.
  - split; [tauto | lia].
  - destruct (Z.eqb k x) eqn:E; simpl.
    + apply Z.eqb_eq in E. split; [lia | auto].
    + apply Z.eqb_neq in E. rewrite <- IH. split; [|tauto].
      intros [H | H]; [congruence | assumption].
Qed.

Lemma list_sum_map_add {A} (a b : A -> nat) (l : list A) :
  list_sum (map (fun k => a k + b k) l) =
  list_sum (map a l) + list_sum (map b l).
Proof. induction l as [|x l IH]; simpl; [reflexivity | lia]. Qed.

Lemma list_sum_indicator (x : Z) (K : list Z) :
  NoDup K -> In x K ->
  list_sum (map (fun k => if Z.eqb k x then 1 else 0) K) = 1.
Proof.
  induction 1 as [|k K Hk Hnd IH]; simpl; [tauto|].
  assert (Hz : ~ In x K ->
               list_sum (map (fun k => if Z.eqb k x then 1 else 0) K) = 0).
  { clear. induction K as [|k K IH]; simpl; [reflexivity|].
    intros H. destruct (Z.eqb k x) eqn:E.
    - apply Z.eqb_eq in E. tauto.
    - apply IH. tauto. }
  intros [-> | Hin].
  - rewrite Z.eqb_refl, Hz; auto.
  - destruct (Z.eqb k x) eqn:E.
    + apply Z.eqb_eq in E. subst. contradiction.
    + now apply IH.
Qed.

(** Summing the group sizes over the distinct keys counts every key once. *)
Lemma list_sum_countZ (ks K : list Z) :
  NoDup K -> (forall k, In k ks -> In k K) ->
  list_sum (map (fun k => countZ k ks) K) = length ks.
Proof.
  intros Hnd. induction ks as [|x ks IH]; intros Hin.
  - unfold countZ. simpl. clear. induction K; simpl; auto.
  - rewrite (map_ext _ (fun k => (if Z.eqb k x then 1 else 0) + countZ k ks)).
    + rewrite list_sum_map_add, list_sum_indicator, IH.
      * reflexivity.
      * intros k Hk. apply Hin. now right.
      * assumption.
      * apply Hin. now left.
    + intros k. unfold countZ. simpl. now destruct (Z.eqb k x).
Qed.

Lemma fy_counts_keys (s : Series) :
  map fst (fy_counts_of s) = sorted (uniqZ (group_keys s)).
Proof. unfold fy_counts_of. rewrite map_map. simpl. apply map_id. Qed.

Lemma fy_counts_ascending (s : Series) :
  StronglySorted Z.lt (map fst (fy_counts_of s)).
Proof. rewrite fy_counts_keys. apply sorted_strict, uniqZ_NoDup. Qed.

Lemma fy_counts_In (s : Series) (y : Z) (n : nat) :
  In (y, n) (fy_counts_of s) <-> 0 < n /\ n = fy_rows s y.
Proof.
  unfold fy_counts_of. rewrite in_map_iff. split.
  - intros [k [[= -> <-] Hk]].
    rewrite sorted_In, uniqZ_In in Hk.
    rewrite <- countZ_group_keys. split; [|reflexivity].
    apply (proj1 (countZ_pos _ _) Hk).
  - intros [Hpos ->]. exists y. rewrite <- countZ_group_keys in *.
    split; [reflexivity|]. rewrite sorted_In, uniqZ_In.
    apply (proj2 (countZ_pos _ _) Hpos).
Qed.

Lemma fy_counts_sum (s : Series) :
  list_sum (map snd (fy_counts_of s)) = length (group_keys s).
Proof.
  unfold fy_counts_of. rewrite map_map. simpl.
  apply list_sum_countZ.
  - eapply Permutation_NoDup; [symmetry; apply sort_by_perm | apply uniqZ_NoDup].
  - intros k Hk. now rewrite sorted_In, uniqZ_In.
Qed.

Lemma StronglySorted_pairs (g : Z -> nat) (l : list Z) :
  StronglySorted Z.lt l ->
  StronglySorted (fun a b : Z * nat => (fst a < fst b)%Z)
                 (map (fun k => (k, g k)) l).
Proof.
  induction 1 as [|a l Hs IH Hall]; simpl; constructor; [assumption|].
  rewrite Forall_map. simpl. exact Hall.
Qed.

Lemma sort_index_fy_counts (s : Series) :
  sort_index (fy_counts_of s) = fy_counts_of s.
Proof.
  unfold sort_index. apply sort_by_id. unfold fy_counts_of.
  apply StronglySorted_pairs, sorted_strict, uniqZ_NoDup.
Qed.

Lemma print_counts_ok (counts : list (Z * nat)) env :
  print_counts counts env = (count_effects counts, Ok tt).
Proof.
  induction counts as [|[y n] counts IH]; [reflexivity|].
  cbn [print_counts].
  rewrite (bind_ok _ _ env [EPrint (LFyCount y n)] tt) by reflexivity.
  now rewrite IH.
Qed.

Lemma verification_summary_ok (combined : DataFrame) (s : Series) env :
  dict_get "fiscal_year" (cols combined) = Some s ->
  verification_summary combined env =
  (summary_banner ++ count_effects (fy_counts_of s)
     ++ [EPrint (LTotal (nrows combined))] ++ advisory (missing_of s),
   Ok tt).
Proof.
  intros Hs. unfold verification_summary.
  rewrite (bind_ok _ _ env [EPrint LRule] tt) by reflexivity.
  rewrite (bind_ok _ _ env [EPrint (LHeading "VERIFICATION: Row count per Fiscal Year")] tt)
    by reflexivity.
  rewrite (bind_ok _ _ env [EPrint LRule] tt) by reflexivity.
  rewrite (bind_ok _ _ env [] (fy_counts_of s)).
  2:{ unfold groupby_size.
      now rewrite (bind_ok _ _ env [] s (getitem_ok _ _ _ env Hs)). }
  cbv zeta. rewrite sort_index_fy_counts.
  rewrite (bind_ok _ _ env _ tt (print_counts_ok _ env)).
  rewrite (bind_ok _ _ env [EPrint (LTotal (nrows combined))] tt) by reflexivity.
  fold (missing_of s).
  assert (Ha : forall m, (match m with
                | [] => print LAllPresent
                | _ :: _ => print (LMissing (sorted m));;; print LDownloadHint
                end) env = (advisory m, Ok tt)).
  { intros [|y m]; reflexivity. }
  rewrite Ha. reflexivity.
Qed.

Lemma range_set_In (y : Z) :
  In y (range_set 2017 2026) <-> (2017 <= y <= 2025)%Z.
Proof.
  unfold range_set. simpl. split.
  - intros H. repeat (destruct H as [<- | H]; [lia|]). destruct H.
  - intros H.
    assert (E : (y = 2017 \/ y = 2018 \/ y = 2019 \/ y = 2020 \/ y = 2021 \/
                 y = 2022 \/ y = 2023 \/ y = 2024 \/ y = 2025)%Z) by lia.
    intuition auto.
Qed.

Lemma missing_of_In (s : Series) (y : Z) :
  In y (missing_of s) <-> (2017 <= y <= 2025)%Z /\ ~ In (VInt y) s.
Proof.
  unfold missing_of. rewrite filter_In, range_set_In, negb_true_iff.
  rewrite <- group_keys_In.
  split; intros [Hr Hn]; split; try assumption.
  - intros Hin. apply not_true_iff_false in Hn. apply Hn.
    now rewrite memZ_In, uniqZ_In, fy_counts_keys, sorted_In, uniqZ_In.
  - apply not_true_iff_false. intros Hin. apply Hn.
    now rewrite memZ_In, uniqZ_In, fy_counts_keys, sorted_In, uniqZ_In in Hin.
Qed.

Lemma missing_of_NoDup (s : Series) : NoDup (missing_of s).
Proof.
  unfold missing_of. apply NoDup_filter. unfold range_set. simpl.
  repeat (constructor; [simpl; intuition discriminate|]). constructor.
Qed.

(** ** The three ways the run can end *)

(** The trace after the partition loop of a run that exports. *)
Definition export_and_summary (frames : list DataFrame) : list effect :=
  let combined := merge_frames frames in
  let fy := flat_map (column_or_nan "fiscal_year") frames in
  merge_banner ++ export_effects combined ++ summary_banner
    ++ count_effects (fy_counts_of fy)
    ++ [EPrint (LTotal (nrows combined))] ++ advisory (missing_of fy).

Lemma in_canonical_fiscal_year : In "fiscal_year" CANONICAL_FIELDS.
Proof. simpl. tauto. Qed.

Lemma in_canonical_action_date : In "action_date" CANONICAL_FIELDS.
Proof. simpl. tauto. Qed.

Lemma main_cases env :
  (exists t1 fy e,
      In fy FY_FOLDERS /\ snd (process_fy fy env) = Raise e /\
      Forall is_print t1 /\ main env = (preamble ++ t1, Raise e)) \/
  (exists t1,
      partition_frames env FY_FOLDERS = [] /\ Forall is_print t1 /\
      main env = (preamble ++ t1 ++ merge_banner,
                  Raise (ValueError "No objects to concatenate"))) \/
  (exists t1,
      partition_frames env FY_FOLDERS <> [] /\ Forall is_print t1 /\
      (forall fy, In fy FY_FOLDERS ->
                  forall e, snd (process_fy fy env) <> Raise e) /\
      main env =
      (preamble ++ t1 ++ export_and_summary (partition_frames env FY_FOLDERS),
       Ok tt)).
Proof.
  rewrite main_unfold.
  destruct (collect_frames FY_FOLDERS [] env) as [t1 [frames|e]] eqn:Hc;
    apply collect_frames_spec in Hc; destruct Hc as [Hp Hc].
  - destruct Hc as [-> Hno]. rewrite app_nil_l. right.
    pose proof (partition_frames_cleaned env FY_FOLDERS) as Hcl.
    destruct (partition_frames env FY_FOLDERS) as [|d rest] eqn:Hf.
    + left. exists t1. auto.
    + right. exists t1. split; [discriminate|]. split; [assumption|].
      split; [assumption|]. cbn [concat ret snd].
      erewrite verification_summary_ok
        by (apply merge_frames_get;
            [discriminate | assumption | apply in_canonical_fiscal_year]).
      reflexivity.
  - destruct Hc as [fy [Hin He]]. left. exists t1, fy, e. auto.
Qed.

Lemma is_print_not_export (t : list effect) :
  Forall is_print t -> forall p d, ~ In (EToParquet p d) t.
Proof.
  intros H p d Hin. rewrite Forall_forall in H. exact (H _ Hin).
Qed.

Lemma preamble_not_export p d : ~ In (EToParquet p d) preamble.
Proof. simpl. intuition discriminate. Qed.

Lemma merge_banner_not_export p d : ~ In (EToParquet p d) merge_banner.
Proof. simpl. intuition discriminate. Qed.


(** * The claims of the specification *)

Lemma fiscal_year1_timestamp (d : Timestamp) :
  fiscal_year1 (VTimestamp d) =
  VInt (if (10 <=? month d)%Z then year d + 1 else year d)%Z.
Proof.
  unfold fiscal_year1. simpl. destruct (10 <=? month d)%Z; simpl.
  - reflexivity.
  - now rewrite Z.add_0_r.
Qed.

Lemma datetimelike_cases (v : value) :
  is_datetimelike v = true -> (exists d, v = VTimestamp d) \/ v = VNaT.
Proof. destruct v; simpl; try discriminate; eauto. Qed.

(** C1.  In every cleaned partition, each row's [action_date] is either a
    date or null.  On a date, [fiscal_year] is the calendar year plus one
    when the month is at least 10 and the calendar year otherwise; on a
    null date, [fiscal_year] is null.  2024-10-01 gives 2025, 2025-09-30
    gives 2025 and 2017-01-01 gives 2017. *)
Theorem fiscal_year_rule env fy t df :
  process_fy fy env = (t, Ok (Some df)) ->
  (exists a y,
      dict_get "action_date" (cols df) = Some a /\
      dict_get "fiscal_year" (cols df) = Some y /\
      length a = nrows df /\ length y = nrows df /\
      forall i, i < nrows df ->
        (exists d, nth_error a i = Some (VTimestamp d) /\
                   nth_error y i =
                   Some (VInt (if (10 <=? month d)%Z
                               then year d + 1 else year d)%Z)) \/
        (nth_error a i = Some VNaT /\ nth_error y i = Some VNaN)) /\
  compute_fiscal_year
    [ VTimestamp (mkTimestamp 2024 10 1); VTimestamp (mkTimestamp 2025 9 30);
      VTimestamp (mkTimestamp 2017 1 1); VNaT ] env =
  ([], Ok [VInt 2025; VInt 2025; VInt 2017; VNaN]).
Proof.
  intros H. split; [|reflexivity].
  apply process_fy_inv in H. destruct H as (path & f & _ & Hr & -> & _).
  set (a := to_datetime (source_column f "action_date")).
  assert (La : length a = length (records f))
    by (unfold a; rewrite length_to_datetime; apply source_column_length).
  exists a, (map fiscal_year1 a).
  split; [apply cleaned_action_date|].
  split; [apply cleaned_fiscal_year|].
  rewrite cleaned_nrows, length_map.
  split; [assumption|]. split; [assumption|].
  intros i Hi. rewrite nth_error_map.
  destruct (nth_error a i) as [v|] eqn:E.
  - pose proof (to_datetime_datetimelike (source_column f "action_date")) as Hd.
    rewrite forallb_forall in Hd. specialize (Hd v (nth_error_In _ _ E)).
    destruct (datetimelike_cases v Hd) as [[d ->] | ->].
    + left. exists d. split; [reflexivity|]. simpl option_map.
      now rewrite fiscal_year1_timestamp.
    + right. split; reflexivity.
  - apply nth_error_None in E. lia.
Qed.

(** C7.  Whatever columns the raw file has, a cleaned partition has exactly
    the thirteen canonical fields: the twelve renamed ones and
    [fiscal_year]. *)
Theorem cleaned_schema env fy t df :
  process_fy fy env = (t, Ok (Some df)) ->
  Permutation (dict_keys (cols df)) CANONICAL_FIELDS /\
  length (dict_keys (cols df)) = 13 /\
  NoDup (dict_keys (cols df)).
Proof.
  intros H. apply process_fy_inv in H.
  destruct H as (path & f & _ & Hr & -> & _).
  pose proof (cleaned_keys_perm f Hr) as Hp.
  split; [assumption|]. split.
  - now rewrite (Permutation_length Hp).
  - eapply Permutation_NoDup; [symmetry; exact Hp|].
    unfold CANONICAL_FIELDS, COLUMN_MAP. simpl.
    repeat (constructor; [simpl; intuition discriminate|]). constructor.
Qed.


Lemma substring_prefix_length (n : nat) (s : string) :
  String.length (substring 0 n s) = Nat.min n (String.length s).
Proof.
  revert s. induction n as [|n IH]; intros s.
  - now destruct s.
  - destruct s as [|c s]; simpl; [reflexivity|]. now rewrite IH.
Qed.

(** C2, as the code has it.  The cleaned zip is the first five characters
    of the source text, so it has at most five characters, and exactly
    five when the source text has five or more; a missing value and the
    text "nan" become null.  "123456789" cleans to "12345". *)
Theorem zip5_truncation env fy t df :
  process_fy fy env = (t, Ok (Some df)) ->
  exists path f z,
    reads env fy path f /\
    dict_get "primary_place_of_performance_zip_5" (cols df) = Some z /\
    length z = nrows df /\
    (forall i s,
        nth_error (source_column f "primary_place_of_performance_zip_4") i
        = Some (VStr s) ->
        nth_error z i =
        Some (if String.eqb (substring 0 5 s) "nan" then VNA
              else VStr (substring 0 5 s)) /\
        String.length (substring 0 5 s) = Nat.min 5 (String.length s)) /\
    (forall i,
        nth_error (source_column f "primary_place_of_performance_zip_4") i
        = Some VNaN ->
        nth_error z i = Some VNA) /\
    (forall i,
        nth_error (source_column f "primary_place_of_performance_zip_4") i
        = Some (VStr "123456789") ->
        nth_error z i = Some (VStr "12345")) /\
    (forall i v,
        nth_error (source_column f "primary_place_of_performance_zip_4") i
        = Some v ->
        v = VNaN \/ exists s, v = VStr s).
Proof.
  intros H. apply process_fy_inv in H.
  destruct H as (path & f & Hrd & Hr & -> & _).
  exists path, f,
    (map zip5_1 (source_column f "primary_place_of_performance_zip_4")).
  split; [assumption|]. split; [apply cleaned_zip_5|].
  split; [rewrite length_map; apply source_column_length|].
  split; [|split; [|split]].
  - intros i s E. rewrite nth_error_map, E. split.
    + reflexivity.
    + apply substring_prefix_length.
  - intros i E. now rewrite nth_error_map, E.
  - intros i E. now rewrite nth_error_map, E.
  - intros i v E. apply nth_error_In in E. unfold source_column in E.
    apply in_map_iff in E. destruct E as [r [<- _]].
    unfold read_cell. destruct (nth_error r _) as [x|]; [|now left].
    destruct (is_na x); [now left | right; eauto].
Qed.


Lemma count_effects_prints (counts : list (Z * nat)) :
  Forall is_print (count_effects counts).
Proof. unfold count_effects. rewrite Forall_map. now apply Forall_forall. Qed.

Lemma advisory_prints (missing : list Z) : Forall is_print (advisory missing).
Proof. destruct missing; repeat constructor. Qed.

(** The effects of the summary for a fiscal-year column. *)
Definition summary_effects (n : nat) (fy : Series) : list effect :=
  summary_banner ++ count_effects (fy_counts_of fy)
    ++ [EPrint (LTotal n)] ++ advisory (missing_of fy).

Lemma summary_effects_prints n fy : Forall is_print (summary_effects n fy).
Proof.
  unfold summary_effects. repeat (apply Forall_app; split).
  - repeat constructor.
  - apply count_effects_prints.
  - repeat constructor.
  - apply advisory_prints.
Qed.

Lemma export_and_summary_split (frames : list DataFrame) :
  export_and_summary frames =
  (merge_banner ++ [EPrint (LTotalCombined (nrows (merge_frames frames)))])
    ++ EToParquet OUTPUT_FILE (merge_frames frames)
    :: EPrint (LExported OUTPUT_FILE)
    :: summary_effects (nrows (merge_frames frames))
         (flat_map (column_or_nan "fiscal_year") frames).
Proof. reflexivity. Qed.

(** What a run that exports has done. *)
Lemma main_export_inv env p out :
  In (EToParquet p out) (fst (main env)) ->
  let frames := partition_frames env FY_FOLDERS in
  p = OUTPUT_FILE /\ out = merge_frames frames /\ frames <> [] /\
  exists pre,
    (forall p' d, ~ In (EToParquet p' d) pre) /\
    main env =
    (pre ++ EToParquet OUTPUT_FILE out
         :: EPrint (LExported OUTPUT_FILE)
         :: summary_effects (nrows out)
              (flat_map (column_or_nan "fiscal_year") frames),
     Ok tt).
Proof.
  intros Hin frames.
  destruct (main_cases env)
    as [(t1 & fy & e & _ & _ & Hp & E) | [(t1 & _ & Hp & E)
       | (t1 & Hne & Hp & _ & E)]]; rewrite E in Hin; cbn [fst] in Hin.
  - exfalso. apply in_app_iff in Hin. destruct Hin as [Hin | Hin].
    + exact (preamble_not_export _ _ Hin).
    + exact (is_print_not_export _ Hp _ _ Hin).
  - exfalso. rewrite !in_app_iff in Hin. destruct Hin as [Hin | [Hin | Hin]].
    + exact (preamble_not_export _ _ Hin).
    + exact (is_print_not_export _ Hp _ _ Hin).
    + exact (merge_banner_not_export _ _ Hin).
  - fold frames in Hne, E, Hin.
    assert (Hpre : forall p' d,
               ~ In (EToParquet p' d)
                    (preamble ++ t1 ++ merge_banner
                       ++ [EPrint (LTotalCombined (nrows (merge_frames frames)))])).
    { intros p' d H. rewrite !in_app_iff in H.
      destruct H as [H | [H | [H | H]]].
      - exact (preamble_not_export _ _ H).
      - exact (is_print_not_export _ Hp _ _ H).
      - exact (merge_banner_not_export _ _ H).
      - simpl in H. intuition discriminate. }
    assert (Hsplit : preamble ++ t1 ++ export_and_summary frames
                     = (preamble ++ t1 ++ merge_banner
                       ++ [EPrint (LTotalCombined (nrows (merge_frames frames)))])
                       ++ EToParquet OUTPUT_FILE (merge_frames frames)
                       :: EPrint (LExported OUTPUT_FILE)
                       :: summary_effects (nrows (merge_frames frames))
                            (flat_map (column_or_nan "fiscal_year") frames)).
    { rewrite export_and_summary_split. now rewrite <- !app_assoc. }
    rewrite Hsplit in Hin, E. clear Hsplit.
    apply in_app_iff in Hin. destruct Hin as [Hin | Hin];
      [exfalso; exact (Hpre _ _ Hin)|].
    destruct Hin as [Heq | [Heq | Hin]]; try discriminate.
    + injection Heq as <- <-. split; [reflexivity|]. split; [reflexivity|].
      split; [assumption|]. eexists. split; [exact Hpre | exact E].
    + exfalso.
      exact (is_print_not_export _ (summary_effects_prints _ _) _ _ Hin).
Qed.

Lemma main_raise_no_export env e :
  snd (main env) = Raise e -> forall p d, ~ In (EToParquet p d) (fst (main env)).
Proof.
  intros Hr p d Hin. apply main_export_inv in Hin.
  destruct Hin as (_ & _ & _ & pre & _ & E). rewrite E in Hr. discriminate.
Qed.

(** C3.  When the file read for some partition lacks one of the twelve
    required columns, or when no partition is cleaned, the run ends with
    an exception and its trace holds no parquet export. *)
Theorem fatal_without_output env :
  (exists fy path f c,
      In fy FY_FOLDERS /\ reads env fy path f /\
      In c USE_COLS /\ ~ In c (header f)) \/
  partition_frames env FY_FOLDERS = [] ->
  length USE_COLS = 12 /\
  (exists e, snd (main env) = Raise e) /\
  forall p df, ~ In (EToParquet p df) (fst (main env)).
Proof.
  intros H. split; [reflexivity|].
  assert (Hr : exists e, snd (main env) = Raise e).
  { destruct (main_cases env)
      as [(t1 & fy & e & _ & _ & _ & E) | [(t1 & _ & _ & E)
         | (t1 & Hne & _ & Hno & E)]].
    - exists e. now rewrite E.
    - eexists. now rewrite E.
    - exfalso. destruct H as [(fy & path & f & c & Hin & [rest [Hg Ho]] & Hc & Hn) | H];
        [|contradiction].
      assert (Hm : ~ has_required f) by (intros Hreq; exact (Hn (Hreq c Hc))).
      apply (Hno fy Hin (ValueError "Usecols do not match columns")).
      now rewrite (process_fy_missing _ _ _ _ _ Hg Ho Hm). }
  split; [assumption|].
  destruct Hr as [e He]. now apply main_raise_no_export with e.
Qed.

(** C4.  For a label whose directory has no matching file, [process_fy]
    prints the warning and returns the skip signal without an exception;
    the loop goes on with the remaining labels and the same accumulator,
    and the label adds no frame, hence no row, to what is concatenated. *)
Theorem missing_partition_skipped env fy :
  glob env (csv_pattern fy) = [] ->
  process_fy fy env =
  ([EPrint (LWarningNoCsv (path_join EXTRACTED_DIR fy))], Ok None) /\
  (forall rest frames,
      collect_frames (fy :: rest) frames env =
      (EPrint (LProcessing fy)
         :: EPrint (LWarningNoCsv (path_join EXTRACTED_DIR fy))
         :: fst (collect_frames rest frames env),
       snd (collect_frames rest frames env))) /\
  (forall before after,
      partition_frames env (before ++ fy :: after) =
      partition_frames env (before ++ after)).
Proof.
  intros Hg. pose proof (process_fy_skip env fy Hg) as Hs.
  split; [assumption|]. split.
  - intros rest frames. cbn [collect_frames].
    rewrite (bind_ok _ _ env [EPrint (LProcessing fy)] tt) by reflexivity.
    rewrite (bind_ok _ _ env _ None Hs). reflexivity.
  - intros before after. unfold partition_frames.
    rewrite !flat_map_app. simpl. now rewrite Hs.
Qed.

(** C6.  What the run exports is the concatenation of the cleaned
    partition frames in the order of [FY_FOLDERS]: it goes to the output
    path, its row count is the sum of the partitions' row counts, it has
    the canonical fields, and each of its columns is the partitions'
    columns of that name put end to end, nothing dropped and nothing
    merged. *)
Theorem combined_is_concatenation env p combined :
  In (EToParquet p combined) (fst (main env)) ->
  let frames := partition_frames env FY_FOLDERS in
  p = OUTPUT_FILE /\
  nrows combined = list_sum (map nrows frames) /\
  Permutation (dict_keys (cols combined)) CANONICAL_FIELDS /\
  forall c, In c CANONICAL_FIELDS ->
    exists ss,
      Forall2 (fun d s => dict_get c (cols d) = Some s /\ length s = nrows d)
              frames ss /\
      dict_get c (cols combined) = Some (List.concat ss).
Proof.
  intros Hin frames. apply main_export_inv in Hin.
  destruct Hin as (-> & -> & Hne & _). fold frames in Hne |- *.
  pose proof (partition_frames_cleaned env FY_FOLDERS) as Hcl.
  fold frames in Hcl.
  split; [reflexivity|]. split; [reflexivity|].
  split; [now apply merge_frames_keys_perm|].
  intros c Hc. exists (map (column_or_nan c) frames). split.
  - clear Hne. induction Hcl as [|d rest Hd _ IH]; simpl; constructor;
      [|assumption].
    pose proof (is_cleaned_keys d Hd) as Hk.
    assert (Hin : In c (dict_keys (cols d)))
      by (eapply Permutation_in; [symmetry; exact Hk | exact Hc]).
    apply dict_get_In in Hin. destruct Hin as [s Hs].
    pose proof (column_or_nan_length c d (is_cleaned_well_formed d Hd)) as Hl.
    unfold column_or_nan in *. rewrite Hs in *. auto.
  - rewrite merge_frames_get by assumption.
    now rewrite flat_map_concat_map.
Qed.

Lemma advisory_sorted (m : list Z) :
  advisory m =
  match sorted m with
  | [] => [EPrint LAllPresent]
  | _ => [EPrint (LMissing (sorted m)); EPrint LDownloadHint]
  end.
Proof.
  destruct m as [|y m]; [reflexivity|]. unfold advisory.
  destruct (sorted (y :: m)) eqn:E; [|reflexivity].
  pose proof (sort_by_perm (fun z => z) (y :: m)) as Hp.
  fold (sorted (y :: m)) in Hp. rewrite E in Hp.
  apply Permutation_nil in Hp. discriminate.
Qed.

Lemma fy_rows_zero (s : Series) (y : Z) : ~ In (VInt y) s <-> fy_rows s y = 0.
Proof.
  rewrite <- group_keys_In, countZ_pos, countZ_group_keys. lia.
Qed.

(** C8.  After the export the run prints, for the [fiscal_year] column of
    the combined frame: one count line per fiscal year that has rows, in
    strictly ascending year order, each with the number of rows of that
    year; the grand total, which is the row count; and either the list,
    in ascending order, of the years of 2017..2025 that no row has,
    followed by the download hint, when there is such a year, or the
    all-present line.  The run then returns normally. *)
Theorem verification_summary_report env p combined :
  In (EToParquet p combined) (fst (main env)) ->
  exists pre fy counts missing,
    main env =
    (pre ++ [EToParquet OUTPUT_FILE combined; EPrint (LExported OUTPUT_FILE)]
         ++ summary_banner ++ count_effects counts
         ++ [EPrint (LTotal (nrows combined))]
         ++ match missing with
            | [] => [EPrint LAllPresent]
            | _ => [EPrint (LMissing missing); EPrint LDownloadHint]
            end,
     Ok tt) /\
    dict_get "fiscal_year" (cols combined) = Some fy /\
    StronglySorted Z.lt (map fst counts) /\
    (forall y n, In (y, n) counts <-> 0 < n /\ n = fy_rows fy y) /\
    StronglySorted Z.lt missing /\
    (forall y, In y missing <-> (2017 <= y <= 2025)%Z /\ fy_rows fy y = 0).
Proof.
  intros Hin. apply main_export_inv in Hin.
  destruct Hin as (_ & Hout & Hne & pre & _ & E).
  pose proof (partition_frames_cleaned env FY_FOLDERS) as Hcl.
  set (fy := flat_map (column_or_nan "fiscal_year")
                      (partition_frames env FY_FOLDERS)) in *.
  exists pre, fy, (fy_counts_of fy), (sorted (missing_of fy)).
  split; [|split; [|split; [|split; [|split]]]].
  - rewrite E. unfold summary_effects. now rewrite advisory_sorted.
  - rewrite Hout.
    now apply merge_frames_get; [| |apply in_canonical_fiscal_year].
  - apply fy_counts_ascending.
  - apply fy_counts_In.
  - apply sorted_strict, missing_of_NoDup.
  - intros y. now rewrite sorted_In, missing_of_In, fy_rows_zero.
Qed.

Lemma group_keys_fiscal_year (a : Series) :
  forallb is_datetimelike a = true ->
  length (group_keys (map fiscal_year1 a)) + length (filter isna a) = length a.
Proof.
  unfold group_keys.
  induction a as [|v a IH]; simpl; [reflexivity|].
  intros H. apply andb_true_iff in H. destruct H as [Hv Ha].
  specialize (IH Ha).
  destruct (datetimelike_cases v Hv) as [[d ->] | ->].
  - rewrite fiscal_year1_timestamp. simpl. lia.
  - simpl. lia.
Qed.

Lemma filter_isna_none (a : Series) :
  length (filter isna a) = 0 <-> Forall (fun v => isna v = false) a.
Proof.
  induction a as [|v a IH]; simpl.
  - split; [constructor | reflexivity].
  - destruct (isna v) eqn:E; simpl.
    + split; [discriminate|]. intros H. inversion H; subst. congruence.
    + rewrite IH. split; [now constructor | now inversion 1].
Qed.

(** C9.  In a run that exports, the combined frame keeps the rows whose
    [action_date] is null; their [fiscal_year] is null and they are in no
    group.  The printed grand total is the row count, which is the sum of
    the printed per-year counts plus the number of rows with a null
    [action_date]: the total is at least the sum of the counts, and equal
    to it exactly when no row has a null [action_date]. *)
Theorem grand_total_covers_null_dates env p combined :
  In (EToParquet p combined) (fst (main env)) ->
  exists pre a y counts post,
    main env =
    (pre ++ [EToParquet OUTPUT_FILE combined; EPrint (LExported OUTPUT_FILE)]
         ++ summary_banner ++ count_effects counts
         ++ EPrint (LTotal (nrows combined)) :: post,
     Ok tt) /\
    dict_get "action_date" (cols combined) = Some a /\
    dict_get "fiscal_year" (cols combined) = Some y /\
    length a = nrows combined /\
    (forall i v, nth_error a i = Some v -> isna v = true ->
                 nth_error y i = Some VNaN) /\
    (forall k n, In (k, n) counts -> n = fy_rows y k) /\
    nrows combined = list_sum (map snd counts) + length (filter isna a) /\
    list_sum (map snd counts) <= nrows combined /\
    (list_sum (map snd counts) = nrows combined <->
     Forall (fun v => isna v = false) a).
Proof.
  intros Hin. apply main_export_inv in Hin.
  destruct Hin as (_ & Hout & Hne & pre & _ & E).
  pose proof (partition_frames_cleaned env FY_FOLDERS) as Hcl.
  set (frames := partition_frames env FY_FOLDERS) in *.
  set (a := flat_map (column_or_nan "action_date") frames).
  pose proof (merge_frames_fiscal_year frames Hcl) as Hfy. fold a in Hfy.
  pose proof (merge_frames_action_date_datetimelike frames Hcl) as Hdt.
  fold a in Hdt.
  assert (Ha : dict_get "action_date" (cols combined) = Some a).
  { rewrite Hout.
    now apply merge_frames_get; [| |apply in_canonical_action_date]. }
  assert (La : length a = nrows combined).
  { pose proof (merge_frames_well_formed frames Hcl) as Hwf.
    rewrite <- Hout in Hwf. unfold well_formed in Hwf.
    rewrite Forall_forall in Hwf.
    exact (Hwf _ (dict_get_In_pair _ _ _ Ha)). }
  assert (Hsum : list_sum (map snd (fy_counts_of (map fiscal_year1 a)))
                 + length (filter isna a) = nrows combined).
  { rewrite fy_counts_sum, <- La. now apply group_keys_fiscal_year. }
  exists pre, a, (map fiscal_year1 a), (fy_counts_of (map fiscal_year1 a)),
    (advisory (missing_of (map fiscal_year1 a))).
  split; [|split; [|split; [|split; [|split; [|split; [|split; [|split]]]]]]].
  - rewrite E, Hfy. reflexivity.
  - assumption.
  - rewrite Hout, <- Hfy.
    now apply merge_frames_get; [| |apply in_canonical_fiscal_year].
  - assumption.
  - intros i v Hv Hna. rewrite nth_error_map, Hv. simpl.
    pose proof (proj1 (forallb_forall _ _) Hdt v (nth_error_In _ _ Hv)) as Hd.
    destruct (datetimelike_cases v Hd) as [[d ->] | ->];
      [discriminate | reflexivity].
  - intros k n Hk. now apply fy_counts_In in Hk.
  - lia.
  - lia.
  - rewrite <- filter_isna_none. lia.
Qed.

(** * Further properties of the script *)

(** ** [compute_fiscal_year] on its own (lines 41-44) *)

(** X1.  The fiscal year [F] is exactly the twelve months from October of
    the calendar year [F - 1] to September of the calendar year [F]. *)
Theorem fiscal_year_boundaries (d : Timestamp) (F : Z) env :
  compute_fiscal_year [VTimestamp d] env = ([], Ok [VInt F]) <->
  (year d = F - 1 /\ 10 <= month d)%Z \/ (year d = F /\ month d < 10)%Z.
Proof.
  rewrite compute_fiscal_year_ok by reflexivity.
  cbn [map]. rewrite fiscal_year1_timestamp.
  destruct (10 <=? month d)%Z eqn:E;
    [apply Z.leb_le in E | apply Z.leb_gt in E].
  - split.
    + intros [= <-]. left. lia.
    + intros [[H _] | [_ H]]; [|lia].
      do 4 f_equal. lia.
  - split.
    + intros [= <-]. right. lia.
    + intros [[_ H] | [H _]]; [lia|]. now rewrite H.
Qed.

(** X2.  The fiscal year never goes back in time: of two dates, the one
    with the later (year, month) has the later or the same fiscal year. *)
Theorem fiscal_year_monotone (d1 d2 : Timestamp) env :
  (year d1 < year d2 \/ (year d1 = year d2 /\ month d1 <= month d2))%Z ->
  exists F1 F2,
    compute_fiscal_year [VTimestamp d1; VTimestamp d2] env
    = ([], Ok [VInt F1; VInt F2]) /\
    (F1 <= F2)%Z.
Proof.
  intros H. rewrite compute_fiscal_year_ok by reflexivity.
  cbn [map]. rewrite !fiscal_year1_timestamp.
  eexists _, _. split; [reflexivity|].
  destruct (10 <=? month d1)%Z eqn:E1;
    [apply Z.leb_le in E1 | apply Z.leb_gt in E1];
    (destruct (10 <=? month d2)%Z eqn:E2;
     [apply Z.leb_le in E2 | apply Z.leb_gt in E2]); lia.
Qed.

Lemma add_series_length (a b : Series) :
  length a = length b -> length (add_series a b) = length a.
Proof.
  revert b. induction a as [|x a IH]; intros [|y b] H; simpl in *;
    try discriminate; [reflexivity|]. f_equal. apply IH. lia.
Qed.


(** ** One partition: what [process_fy] makes of the source fields *)

Lemma source_column_cells (f : CsvFile) (c : string) (v : value) :
  In v (source_column f c) -> v = VNaN \/ exists s, v = VStr s.
Proof.
  unfold source_column. intros H. apply in_map_iff in H.
  destruct H as [r [<- _]]. unfold read_cell.
  destruct (nth_error r _) as [x|]; [|now left].
  destruct (is_na x); [now left | right; eauto].
Qed.

(** X4.  The eight fields the script does not touch come out as they were
    read: the cleaned column under the canonical name is the source column
    under the source name ([contract_description] is the source's
    [transaction_description]), and each of its cells is text or NaN,
    never a number or a date. *)
Theorem passthrough_columns env fy t df :
  process_fy fy env = (t, Ok (Some df)) ->
  exists path f,
    reads env fy path f /\
    forall canon src,
      In (canon, src) COLUMN_MAP ->
      ~ In canon [ "action_date"; "period_of_performance_start_date";
                   "award_amount"; "primary_place_of_performance_zip_5" ] ->
      dict_get canon (cols df) = Some (source_column f src) /\
      forall v, In v (source_column f src) ->
                v = VNaN \/ exists s, v = VStr s.
Proof.
  intros H. apply process_fy_inv in H.
  destruct H as (path & f & Hrd & Hr & -> & _).
  exists path, f. split; [assumption|].
  intros canon src Hin Hnot.
  split; [|apply source_column_cells].
  unfold COLUMN_MAP in Hin. simpl in Hin.
  unfold cleaned, setitem. cbn [cols nrows].
  repeat (destruct Hin as [[= <- <-] | Hin];
          [first [ exfalso; apply Hnot; simpl; tauto
                 | dict_simpl;
                   match goal with
                   | |- _ = Some (source_column f ?c) =>
                       apply (renamed_get f c Hr); simpl; tauto
                   end ]|]).
  destruct Hin.
Qed.



Lemma substring_all (n : nat) (s : string) :
  String.length s <= n -> substring 0 n s = s.
Proof.
  revert s. induction n as [|n IH]; intros [|c s] H; simpl in *;
    try reflexivity; [lia|]. f_equal. apply IH. lia.
Qed.

Lemma substring_is_prefix (n : nat) (s : string) :
  prefix (substring 0 n s) s = true.
Proof.
  revert s. induction n as [|n IH]; intros [|c s]; simpl; try reflexivity.
  destruct (ascii_dec c c) as [_|Hc]; [apply IH | congruence].
Qed.

(** X7.  The zip cleaning only ever cuts: a present cleaned zip is a
    prefix of the source text, and a source text of at most five
    characters (other than "nan") is kept as it is, leading zeros
    included. *)
Theorem zip5_prefix env fy t df :
  process_fy fy env = (t, Ok (Some df)) ->
  exists path f z,
    reads env fy path f /\
    dict_get "primary_place_of_performance_zip_5" (cols df) = Some z /\
    (forall i s s',
        nth_error (source_column f "primary_place_of_performance_zip_4") i
        = Some (VStr s) ->
        nth_error z i = Some (VStr s') ->
        prefix s' s = true) /\
    (forall i s,
        nth_error (source_column f "primary_place_of_performance_zip_4") i
        = Some (VStr s) ->
        String.length s <= 5 -> s <> "nan" ->
        nth_error z i = Some (VStr s)) /\
    (forall i,
        nth_error (source_column f "primary_place_of_performance_zip_4") i
        = Some (VStr "02134") ->
        nth_error z i = Some (VStr "02134")).
Proof.
  intros H. apply process_fy_inv in H.
  destruct H as (path & f & Hrd & Hr & -> & _).
  exists path, f,
    (map zip5_1 (source_column f "primary_place_of_performance_zip_4")).
  split; [assumption|]. split; [apply cleaned_zip_5|].
  split; [|split].
  - intros i s s' E. rewrite nth_error_map, E. cbn.
    destruct (String.eqb (substring 0 5 s) "nan"); [discriminate|].
    intros [= <-]. apply substring_is_prefix.
  - intros i s E Hl Hn. rewrite nth_error_map, E. cbn.
    rewrite (substring_all 5 s Hl).
    apply String.eqb_neq in Hn. now rewrite Hn.
  - intros i E. now rewrite nth_error_map, E.
Qed.

(** X8.  The columns of a cleaned partition are the required columns in
    the order the file has them, under their canonical names, followed by
    [fiscal_year] as the last column. *)
Theorem cleaned_column_order env fy t df :
  process_fy fy env = (t, Ok (Some df)) ->
  exists path f,
    reads env fy path f /\
    dict_keys (cols df) =
    map canonical_name (filter (fun c => mem c USE_COLS) (uniq (header f)))
      ++ ["fiscal_year"].
Proof.
  intros H. apply process_fy_inv in H.
  destruct H as (path & f & Hrd & Hr & -> & _).
  exists path, f. split; [assumption|].
  now rewrite (cleaned_keys f Hr), renamed_keys, raw_frame_keys.
Qed.

(** X9.  Only the first match of the glob counts: two environments that
    agree on the first matching path and on that file give the same
    result and the same output for the partition, whatever else matches. *)
Theorem first_match_only env1 env2 fy path rest1 rest2 :
  glob env1 (csv_pattern fy) = path :: rest1 ->
  glob env2 (csv_pattern fy) = path :: rest2 ->
  open_csv env1 path = open_csv env2 path ->
  process_fy fy env1 = process_fy fy env2.
Proof.
  intros Hg1 Hg2 Ho.
  destruct (open_csv env2 path) as [f|] eqn:Ho2.
  - destruct (forallb (fun c => mem c (header f)) USE_COLS) eqn:E.
    + apply has_required_dec in E.
      now rewrite (process_fy_ok _ _ _ _ _ Hg1 Ho E),
                  (process_fy_ok _ _ _ _ _ Hg2 Ho2 E).
    + assert (Hn : ~ has_required f).
      { intros H. apply has_required_dec in H. congruence. }
      now rewrite (process_fy_missing _ _ _ _ _ Hg1 Ho Hn),
                  (process_fy_missing _ _ _ _ _ Hg2 Ho2 Hn).
  - now rewrite (process_fy_unreadable _ _ _ _ Hg1 Ho),
                (process_fy_unreadable _ _ _ _ Hg2 Ho2).
Qed.

(** ** The rename map (line 61) *)

(** [{v: k for k, v in m.items()}] *)
Definition reverse_dict (m : list (string * string)) : list (string * string) :=
  fold_left (fun acc kv => dict_set (snd kv) (fst kv) acc) m [].

Lemma reverse_map_is_reverse_dict : reverse_map = reverse_dict COLUMN_MAP.
Proof. reflexivity. Qed.

Lemma reverse_fold_get (m acc : list (string * string)) (v : string) :
  NoDup (map snd m) ->
  dict_get v (fold_left (fun acc kv => dict_set (snd kv) (fst kv) acc) m acc) =
  match find (fun kv => String.eqb v (snd kv)) m with
  | Some kv => Some (fst kv)
  | None => dict_get v acc
  end.
Proof.
  revert acc. induction m as [|[k v'] m IH]; intros acc Hnd; [reflexivity|].
  inversion Hnd as [|? ? Hnotin Hnd']; subst. cbn [fold_left find snd fst].
  rewrite (IH _ Hnd').
  destruct (String.eqb v v') eqn:E.
  - apply String.eqb_eq in E. subst v'.
    destruct (find (fun kv => String.eqb v (snd kv)) m) as [[k2 v2]|] eqn:F.
    + exfalso. apply find_some in F. destruct F as [Hin Heq].
      apply String.eqb_eq in Heq. simpl in Heq. subst v2.
      apply Hnotin. apply in_map_iff. now exists (k2, v).
    + apply dict_get_set_eq.
  - destruct (find (fun kv => String.eqb v (snd kv)) m); [reflexivity|].
    apply dict_get_set_neq. now apply String.eqb_neq.
Qed.

(** X10.  Reversing a column map whose source names are all different
    loses nothing: the reversed dict sends a source name to a canonical
    name exactly for the pairs of the map, so renaming never merges two
    columns.  [COLUMN_MAP] is such a map. *)
Theorem reverse_dict_round_trip (m : list (string * string)) :
  NoDup (map snd m) ->
  forall k v, In (k, v) m <-> dict_get v (reverse_dict m) = Some k.
Proof.
  intros Hnd k v. unfold reverse_dict. rewrite (reverse_fold_get m [] v Hnd).
  destruct (find (fun kv => String.eqb v (snd kv)) m) as [[k2 v2]|] eqn:F.
  - pose proof (find_some _ _ F) as [Hin Heq].
    apply String.eqb_eq in Heq. simpl in Heq. subst v2. simpl. split.
    + intros Hkv. f_equal.
      clear F. induction m as [|[a b] m IH]; [destruct Hin|].
      inversion Hnd as [|? ? Hnotin Hnd']; subst. simpl in *.
      destruct Hin as [Hin | Hin], Hkv as [Hkv | Hkv].
      * congruence.
      * injection Hin as -> ->.
        exfalso. apply Hnotin. apply in_map_iff. now exists (k, v).
      * injection Hkv as -> ->.
        exfalso. apply Hnotin. apply in_map_iff. now exists (k2, v).
      * now apply IH.
    + now intros [= <-].
  - simpl. split; [|discriminate]. intros Hin. exfalso.
    apply (find_none _ _ F) in Hin. simpl in Hin.
    now rewrite String.eqb_refl in Hin.
Qed.

(** ** The loop and the run (lines 89-137) *)

(** X11.  The loop stops at the first partition that raises: the run ends
    with that partition's exception, right after its output, and the
    labels after it are never processed. *)
Theorem loop_stops_at_first_failure env before fy after e :
  (forall l, In l before -> forall e', snd (process_fy l env) <> Raise e') ->
  snd (process_fy fy env) = Raise e ->
  forall acc,
    collect_frames (before ++ fy :: after) acc env =
    (fst (collect_frames before acc env)
       ++ EPrint (LProcessing fy) :: fst (process_fy fy env),
     Raise e).
Proof.
  intros Hok He. induction before as [|l before IH]; intros acc.
  - cbn [app collect_frames].
    rewrite (bind_ok _ _ env [EPrint (LProcessing fy)] tt) by reflexivity.
    destruct (process_fy fy env) as [tp r] eqn:Hp. simpl in He. subst r.
    now rewrite (bind_raise _ _ env tp e Hp).
  - assert (Hok' : forall l', In l' before ->
                             forall e', snd (process_fy l' env) <> Raise e')
      by (intros l' Hl'; apply Hok; now right).
    specialize (IH Hok').
    pose proof (Hok l (or_introl eq_refl)) as Hl.
    cbn [app collect_frames].
    rewrite !(bind_ok _ _ env [EPrint (LProcessing l)] tt) by reflexivity.
    destruct (process_fy l env) as [tp [[d|]|e']] eqn:Hp.
    + rewrite !(bind_ok _ _ env tp (Some d) Hp).
      rewrite !(bind_ok _ _ env [EPrint (LRows (nrows d))] tt) by reflexivity.
      rewrite IH. cbn [fst snd]. f_equal.
      cbn [app]. now rewrite <- !app_assoc.
    + rewrite !(bind_ok _ _ env tp None Hp).
      rewrite IH. cbn [fst snd]. f_equal.
      cbn [app]. now rewrite <- !app_assoc.
    + exfalso. exact (Hl e' eq_refl).
Qed.


(** The run, split at the loop. *)
Lemma main_after_loop env :
  (exists fy e,
      In fy FY_FOLDERS /\ snd (process_fy fy env) = Raise e /\
      main env = (preamble ++ fst (collect_frames FY_FOLDERS [] env), Raise e)) \/
  ((forall fy, In fy FY_FOLDERS -> forall e, snd (process_fy fy env) <> Raise e) /\
   snd (collect_frames FY_FOLDERS [] env)
   = Ok (partition_frames env FY_FOLDERS) /\
   ((partition_frames env FY_FOLDERS = [] /\
     main env = (preamble ++ fst (collect_frames FY_FOLDERS [] env)
                   ++ merge_banner,
                 Raise (ValueError "No objects to concatenate"))) \/
    (partition_frames env FY_FOLDERS <> [] /\
     main env = (preamble ++ fst (collect_frames FY_FOLDERS [] env)
                   ++ export_and_summary (partition_frames env FY_FOLDERS),
                 Ok tt)))).
Proof.
  rewrite main_unfold.
  destruct (collect_frames FY_FOLDERS [] env) as [t1 [frames|e]] eqn:Hc;
    apply collect_frames_spec in Hc; destruct Hc as [Hp Hc].
  - destruct Hc as [-> Hno]. rewrite app_nil_l. right.
    split; [assumption|]. split; [reflexivity|].
    pose proof (partition_frames_cleaned env FY_FOLDERS) as Hcl.
    destruct (partition_frames env FY_FOLDERS) as [|d rest] eqn:Hf.
    + left. auto.
    + right. split; [discriminate|]. cbn [concat ret snd fst].
      erewrite verification_summary_ok
        by (apply merge_frames_get;
            [discriminate | assumption | apply in_canonical_fiscal_year]).
      reflexivity.
  - destruct Hc as [fy [Hin He]]. left. exists fy, e. auto.
Qed.



Definition is_export (e : effect) : bool :=
  match e with EToParquet _ _ => true | _ => false end.

Lemma filter_is_export_nil (t : list effect) :
  (forall p d, ~ In (EToParquet p d) t) -> filter is_export t = [].
Proof.
  induction t as [|x t IH]; intros H; [reflexivity|]. simpl.
  destruct x; simpl; try (apply IH; intros p d Hin; apply (H p d); now right).
  exfalso. apply (H path df). now left.
Qed.

(** X14.  The run returns normally exactly when it has exported: nothing
    can fail once the parquet file is written, and no run exports more
    than once. *)
Theorem returns_iff_exported env :
  (snd (main env) = Ok tt <->
   exists combined, In (EToParquet OUTPUT_FILE combined) (fst (main env))) /\
  length (filter is_export (fst (main env))) <= 1.
Proof.
  destruct (main_cases env)
    as [(t1 & fy & e & _ & _ & Hp & E) | [(t1 & _ & Hp & E)
       | (t1 & Hne & Hp & _ & E)]].
  - assert (Hnone : forall p d, ~ In (EToParquet p d) (fst (main env))).
    { apply main_raise_no_export with e. now rewrite E. }
    split.
    + rewrite E at 1. split; [discriminate|]. intros [c Hc].
      exfalso. exact (Hnone _ _ Hc).
    + rewrite (filter_is_export_nil _ Hnone). simpl. lia.
  - assert (Hnone : forall p d, ~ In (EToParquet p d) (fst (main env))).
    { eapply main_raise_no_export. now rewrite E. }
    split.
    + rewrite E at 1. split; [discriminate|]. intros [c Hc].
      exfalso. exact (Hnone _ _ Hc).
    + rewrite (filter_is_export_nil _ Hnone). simpl. lia.
  - assert (Hin : In (EToParquet OUTPUT_FILE
                        (merge_frames (partition_frames env FY_FOLDERS)))
                     (fst (main env))).
    { rewrite E. cbn [fst]. rewrite export_and_summary_split.
      rewrite !in_app_iff. right; right; right. now left. }
    pose proof (main_export_inv env _ _ Hin) as (_ & _ & _ & pre & Hpre & E').
    split.
    + rewrite E' at 1. split; [eauto | reflexivity].
    + rewrite E'. cbn [fst]. rewrite filter_app. cbn [filter is_export].
      rewrite (filter_is_export_nil _ Hpre).
      rewrite (filter_is_export_nil
                 (summary_effects _ _)
                 (is_print_not_export _ (summary_effects_prints _ _))).
      simpl. lia.
Qed.




(** The "Rows:" lines of a trace (line 102). *)
Definition rows_lines (t : list effect) : list nat :=
  flat_map (fun e => match e with EPrint (LRows n) => [n] | _ => [] end) t.

Lemma rows_lines_app (a b : list effect) :
  rows_lines (a ++ b) = rows_lines a ++ rows_lines b.
Proof. apply flat_map_app. Qed.

Lemma process_fy_rows_lines env fy : rows_lines (fst (process_fy fy env)) = [].
Proof.
  destruct (process_fy_cases env fy)
    as [[_ E] | [(path & f & _ & _ & E) | [(path & f & _ & _ & E)
       | (path & rest & _ & _ & E)]]]; now rewrite E.
Qed.

Lemma collect_frames_rows_lines (labels : list string) :
  forall acc env frames,
    snd (collect_frames labels acc env) = Ok frames ->
    rows_lines (fst (collect_frames labels acc env))
    = map nrows (partition_frames env labels).
Proof.
  induction labels as [|fy rest IH]; intros acc env frames H; [reflexivity|].
  cbn [collect_frames] in *.
  rewrite (bind_ok _ _ env [EPrint (LProcessing fy)] tt) in * by reflexivity.
  pose proof (process_fy_rows_lines env fy) as Hr.
  unfold partition_frames. cbn [flat_map].
  destruct (process_fy fy env) as [tp [[d|]|e]] eqn:Hp; cbn [fst snd] in *.
  - rewrite (bind_ok _ _ env tp (Some d) Hp) in *.
    rewrite (bind_ok _ _ env [EPrint (LRows (nrows d))] tt) in * by reflexivity.
    cbn [fst snd] in *. rewrite !rows_lines_app, Hr.
    rewrite (IH _ _ _ H). reflexivity.
  - rewrite (bind_ok _ _ env tp None Hp) in *.
    cbn [fst snd] in *. rewrite !rows_lines_app, Hr.
    rewrite (IH _ _ _ H). reflexivity.
  - rewrite (bind_raise _ _ env tp e Hp) in H. discriminate.
Qed.

Lemma count_effects_rows_lines (counts : list (Z * nat)) :
  rows_lines (count_effects counts) = [].
Proof. induction counts as [|[y n] counts IH]; [reflexivity | exact IH]. Qed.

Lemma export_and_summary_rows_lines frames :
  rows_lines (export_and_summary frames) = [].
Proof.
  unfold export_and_summary. cbv zeta.
  rewrite !rows_lines_app, count_effects_rows_lines.
  now destruct (missing_of _).
Qed.

(** X16.  In a run that exports, the "Rows:" lines are the row counts of
    the cleaned partitions in label order, and they add up to the row
    count of the exported frame, which the "Total combined rows" line
    shows. *)
Theorem rows_lines_add_up env p combined :
  In (EToParquet p combined) (fst (main env)) ->
  rows_lines (fst (main env)) = map nrows (partition_frames env FY_FOLDERS) /\
  list_sum (rows_lines (fst (main env))) = nrows combined /\
  In (EPrint (LTotalCombined (nrows combined))) (fst (main env)).
Proof.
  intros Hin.
  pose proof (main_export_inv env _ _ Hin) as (_ & -> & _ & pre & _ & E').
  destruct (main_after_loop env)
    as [(fy & e & _ & _ & E) | (_ & Hc & [[_ E] | [_ E]])];
    try (rewrite E in E'; discriminate).
  assert (Hrows : rows_lines (fst (main env))
                  = map nrows (partition_frames env FY_FOLDERS)).
  { rewrite E. cbn [fst].
    rewrite !rows_lines_app, export_and_summary_rows_lines.
    rewrite (collect_frames_rows_lines _ _ _ _ Hc). cbn. apply app_nil_r. }
  split; [assumption|]. split; [now rewrite Hrows|].
  rewrite E. cbn [fst]. rewrite export_and_summary_split, !in_app_iff.
  right; right; left; right. now left.
Qed.

(** X17.  When the exported frame has no rows (every file read holds only
    its header), the run still returns normally: the summary has no count
    line, a total of 0, and reports all of 2017..2025 as missing. *)
Theorem empty_export_summary env p combined :
  In (EToParquet p combined) (fst (main env)) ->
  nrows combined = 0 ->
  exists pre,
    main env =
    (pre ++ [ EToParquet OUTPUT_FILE combined; EPrint (LExported OUTPUT_FILE) ]
         ++ summary_banner
         ++ [ EPrint (LTotal 0);
              EPrint (LMissing [2017; 2018; 2019; 2020; 2021;
                                2022; 2023; 2024; 2025]%Z);
              EPrint LDownloadHint ],
     Ok tt).
Proof.
  intros Hin H0.
  pose proof (main_export_inv env _ _ Hin) as (_ & Hout & Hne & pre & _ & E).
  pose proof (partition_frames_cleaned env FY_FOLDERS) as Hcl.
  set (frames := partition_frames env FY_FOLDERS) in *.
  assert (Hfy : flat_map (column_or_nan "fiscal_year") frames = []).
  { apply length_zero_iff_nil.
    pose proof (merge_frames_well_formed frames Hcl) as Hwf.
    pose proof (merge_frames_get frames Hne Hcl "fiscal_year"
                  in_canonical_fiscal_year) as Hg.
    unfold well_formed in Hwf. rewrite Forall_forall in Hwf.
    specialize (Hwf _ (dict_get_In_pair _ _ _ Hg)). cbn [snd] in Hwf.
    rewrite Hwf, <- Hout. exact H0. }
  exists pre. rewrite E, Hfy, H0. reflexivity.
Qed.

End Pandas.

Arguments VStr {Num} s.
Arguments VNaN {Num}.
Arguments VTimestamp {Num} d.
Arguments VNaT {Num}.
Arguments VFloat {Num} x.
Arguments VInt {Num} z.
Arguments VBool {Num} b.
Arguments VNA {Num}.
Arguments mkDF {Num} nrows cols.
Arguments nrows {Num} d.
Arguments cols {Num} d.
Arguments EPrint {Num} l.
Arguments EMakedirs {Num} path.
Arguments EToParquet {Num} path df.

Arguments isna {Num} v.
Arguments fy_rows {Num} s y.
Arguments count_effects {Num} counts.
Arguments summary_banner {Num}.
Arguments compute_fiscal_year {Num} date_series.

(** * The sample run

    The model instantiated with the sample parsers, on the sample files:
    FY2017 has two records (the second with an unparsable date and amount
    and no zip), FY2019 has one record with a four-character zip, and the
    other seven directories are empty. *)

Module Run.

Definition str_other (_ : value Sample.Num) : string := "?".

Definition process_fy :=
  process_fy Sample.Num Sample.na_values Sample.iso_date Sample.decimal str_other.
Definition collect_frames :=
  collect_frames Sample.Num Sample.na_values Sample.iso_date Sample.decimal
                 str_other.
Definition partition_frames :=
  partition_frames Sample.Num Sample.na_values Sample.iso_date Sample.decimal
                   str_other.
Definition main :=
  main Sample.Num Sample.na_values Sample.iso_date Sample.decimal str_other.
Definition cleaned :=
  cleaned Sample.Num Sample.na_values Sample.iso_date Sample.decimal str_other.
Definition source_column := source_column Sample.Num Sample.na_values.

Definition path_of (fy : string) : string :=
  path_join (path_join EXTRACTED_DIR fy) "all.csv".
Definition reading (fy : string) : effect Sample.Num :=
  EPrint (LReading (path_of fy)).

Definition df2017 : DataFrame Sample.Num := cleaned Sample.fy2017.
Definition df2019 : DataFrame Sample.Num := cleaned Sample.fy2019.
Definition combined : DataFrame Sample.Num :=
  merge_frames Sample.Num [df2017; df2019].

End Run.


Lemma fiscal_year_rule_witness :
  Run.process_fy "FY2017" Sample.env1
  = ([Run.reading "FY2017"], Ok (Some Run.df2017)) /\
  (exists a y,
      dict_get "action_date" (cols Run.df2017) = Some a /\
      dict_get "fiscal_year" (cols Run.df2017) = Some y /\
      length a = nrows Run.df2017 /\ length y = nrows Run.df2017 /\
      forall i, i < nrows Run.df2017 ->
        (exists d, nth_error a i = Some (VTimestamp d) /\
                   nth_error y i =
                   Some (VInt (if (10 <=? month d)%Z
                               then year d + 1 else year d)%Z)) \/
        (nth_error a i = Some VNaT /\ nth_error y i = Some VNaN)) /\
  compute_fiscal_year
    [ VTimestamp (mkTimestamp 2024 10 1); VTimestamp (mkTimestamp 2025 9 30);
      VTimestamp (mkTimestamp 2017 1 1); VNaT ] Sample.env1 =
  ([], Ok [VInt (Num := Sample.Num) 2025; VInt 2025; VInt 2017; VNaN]).
Proof.
  split; [vm_compute; reflexivity|].
  apply (fiscal_year_rule Sample.Num Sample.na_values Sample.iso_date
           Sample.decimal Run.str_other Sample.env1 "FY2017"
           [Run.reading "FY2017"] Run.df2017).
  vm_compute; reflexivity.
Defined.

Lemma cleaned_schema_witness :
  Run.process_fy "FY2017" Sample.env1
  = ([Run.reading "FY2017"], Ok (Some Run.df2017)) /\
  Permutation (dict_keys (cols Run.df2017)) CANONICAL_FIELDS /\
  length (dict_keys (cols Run.df2017)) = 13 /\
  NoDup (dict_keys (cols Run.df2017)).
Proof.
  split; [vm_compute; reflexivity|].
  apply (cleaned_schema Sample.Num Sample.na_values Sample.iso_date
           Sample.decimal Run.str_other Sample.env1 "FY2017"
           [Run.reading "FY2017"] Run.df2017).
  vm_compute; reflexivity.
Defined.


Lemma zip5_truncation_witness :
  Run.process_fy "FY2017" Sample.env1
  = ([Run.reading "FY2017"], Ok (Some Run.df2017)) /\
  exists path f z,
    reads Sample.env1 "FY2017" path f /\
    dict_get "primary_place_of_performance_zip_5" (cols Run.df2017) = Some z /\
    length z = nrows Run.df2017 /\
    (forall i s,
        nth_error (Run.source_column f "primary_place_of_performance_zip_4") i
        = Some (VStr s) ->
        nth_error z i =
        Some (if String.eqb (substring 0 5 s) "nan" then VNA
              else VStr (substring 0 5 s)) /\
        String.length (substring 0 5 s) = Nat.min 5 (String.length s)) /\
    (forall i,
        nth_error (Run.source_column f "primary_place_of_performance_zip_4") i
        = Some VNaN ->
        nth_error z i = Some VNA) /\
    (forall i,
        nth_error (Run.source_column f "primary_place_of_performance_zip_4") i
        = Some (VStr "123456789") ->
        nth_error z i = Some (VStr "12345")) /\
    (forall i v,
        nth_error (Run.source_column f "primary_place_of_performance_zip_4") i
        = Some v ->
        v = VNaN \/ exists s, v = VStr s).
Proof.
  split; [vm_compute; reflexivity|].
  apply (zip5_truncation Sample.Num Sample.na_values Sample.iso_date
           Sample.decimal Run.str_other Sample.env1 "FY2017"
           [Run.reading "FY2017"] Run.df2017).
  vm_compute; reflexivity.
Defined.

(** The FY2019 sample record has the zip "2000": the cleaned field is
    present and has four characters, so a present zip need not have five. *)
Lemma zip5_exactly_five_counterexample :
  ~ (forall env fy t df z i s,
        Run.process_fy fy env = (t, Ok (Some df)) ->
        dict_get "primary_place_of_performance_zip_5" (cols df) = Some z ->
        nth_error z i = Some (VStr s) ->
        String.length s = 5).
Proof.
  intros H.
  assert (E : Run.process_fy "FY2019" Sample.env1
              = ([Run.reading "FY2019"], Ok (Some Run.df2019)))
    by (vm_compute; reflexivity).
  specialize (H Sample.env1 "FY2019" _ _ [VStr "2000"] 0 "2000" E).
  assert (L : String.length "2000" = 5).
  { apply H; [vm_compute; reflexivity | reflexivity]. }
  discriminate L.
Qed.

Lemma fatal_without_output_witness :
  (((exists fy path f c,
        In fy FY_FOLDERS /\ reads Sample.env_broken fy path f /\
        In c USE_COLS /\ ~ In c (header f)) \/
    Run.partition_frames Sample.env_broken FY_FOLDERS = []) /\
   length USE_COLS = 12 /\
   (exists e, snd (Run.main Sample.env_broken) = Raise e) /\
   forall p df, ~ In (EToParquet p df) (fst (Run.main Sample.env_broken))) /\
  (Run.partition_frames Sample.env_empty FY_FOLDERS = [] /\
   length USE_COLS = 12 /\
   (exists e, snd (Run.main Sample.env_empty) = Raise e) /\
   forall p df, ~ In (EToParquet p df) (fst (Run.main Sample.env_empty))).
Proof.
  assert (H : (exists fy path f c,
                  In fy FY_FOLDERS /\ reads Sample.env_broken fy path f /\
                  In c USE_COLS /\ ~ In c (header f)) \/
              Run.partition_frames Sample.env_broken FY_FOLDERS = []).
  { left. exists "FY2018", (Run.path_of "FY2018"), Sample.broken, "recipient_uei".
    split; [simpl; tauto|].
    split; [exists []; split; reflexivity|].
    split; [simpl; tauto|].
    vm_compute. intuition discriminate. }
  split.
  - split; [exact H|].
    exact (fatal_without_output Sample.Num Sample.na_values Sample.iso_date
             Sample.decimal Run.str_other Sample.env_broken H).
  - split; [reflexivity|].
    apply (fatal_without_output Sample.Num Sample.na_values Sample.iso_date
             Sample.decimal Run.str_other Sample.env_empty).
    right. reflexivity.
Defined.

Lemma missing_partition_skipped_witness :
  glob Sample.env1 (csv_pattern "FY2018") = [] /\
  Run.process_fy "FY2018" Sample.env1 =
  ([EPrint (LWarningNoCsv (path_join EXTRACTED_DIR "FY2018"))], Ok None) /\
  (forall rest frames,
      Run.collect_frames ("FY2018" :: rest) frames Sample.env1 =
      (EPrint (LProcessing "FY2018")
         :: EPrint (LWarningNoCsv (path_join EXTRACTED_DIR "FY2018"))
         :: fst (Run.collect_frames rest frames Sample.env1),
       snd (Run.collect_frames rest frames Sample.env1))) /\
  (forall before after,
      Run.partition_frames Sample.env1 (before ++ "FY2018" :: after) =
      Run.partition_frames Sample.env1 (before ++ after)).
Proof.
  split; [reflexivity|].
  apply (missing_partition_skipped Sample.Num Sample.na_values Sample.iso_date
           Sample.decimal Run.str_other Sample.env1 "FY2018").
  reflexivity.
Defined.



Lemma combined_is_concatenation_witness :
  In (EToParquet OUTPUT_FILE Run.combined) (fst (Run.main Sample.env1)) /\
  OUTPUT_FILE = OUTPUT_FILE /\
  nrows Run.combined
  = list_sum (map nrows (Run.partition_frames Sample.env1 FY_FOLDERS)) /\
  Permutation (dict_keys (cols Run.combined)) CANONICAL_FIELDS /\
  forall c, In c CANONICAL_FIELDS ->
    exists ss,
      Forall2 (fun d s => dict_get c (cols d) = Some s /\ length s = nrows d)
              (Run.partition_frames Sample.env1 FY_FOLDERS) ss /\
      dict_get c (cols Run.combined) = Some (List.concat ss).
Proof.
  assert (H : In (EToParquet OUTPUT_FILE Run.combined)
                 (fst (Run.main Sample.env1))).
  { apply (nth_error_In _ 28). vm_compute. reflexivity. }
  split; [exact H|].
  exact (combined_is_concatenation Sample.Num Sample.na_values Sample.iso_date
           Sample.decimal Run.str_other Sample.env1 OUTPUT_FILE Run.combined H).
Defined.

Lemma verification_summary_report_witness :
  In (EToParquet OUTPUT_FILE Run.combined) (fst (Run.main Sample.env1)) /\
  exists pre fy counts missing,
    Run.main Sample.env1 =
    (pre ++ [EToParquet OUTPUT_FILE Run.combined;
             EPrint (LExported OUTPUT_FILE)]
         ++ summary_banner ++ count_effects counts
         ++ [EPrint (LTotal (nrows Run.combined))]
         ++ match missing with
            | [] => [EPrint LAllPresent]
            | _ => [EPrint (LMissing missing); EPrint LDownloadHint]
            end,
     Ok tt) /\
    dict_get "fiscal_year" (cols Run.combined) = Some fy /\
    StronglySorted Z.lt (map fst counts) /\
    (forall y n, In (y, n) counts <-> 0 < n /\ n = fy_rows fy y) /\
    StronglySorted Z.lt missing /\
    (forall y, In y missing <-> (2017 <= y <= 2025)%Z /\ fy_rows fy y = 0).
Proof.
  assert (H : In (EToParquet OUTPUT_FILE Run.combined)
                 (fst (Run.main Sample.env1))).
  { apply (nth_error_In _ 28). vm_compute. reflexivity. }
  split; [exact H|].
  exact (verification_summary_report Sample.Num Sample.na_values
           Sample.iso_date Sample.decimal Run.str_other Sample.env1
           OUTPUT_FILE Run.combined H).
Defined.

Lemma grand_total_covers_null_dates_witness :
  In (EToParquet OUTPUT_FILE Run.combined) (fst (Run.main Sample.env1)) /\
  exists pre a y counts post,
    Run.main Sample.env1 =
    (pre ++ [EToParquet OUTPUT_FILE Run.combined;
             EPrint (LExported OUTPUT_FILE)]
         ++ summary_banner ++ count_effects counts
         ++ EPrint (LTotal (nrows Run.combined)) :: post,
     Ok tt) /\
    dict_get "action_date" (cols Run.combined) = Some a /\
    dict_get "fiscal_year" (cols Run.combined) = Some y /\
    length a = nrows Run.combined /\
    (forall i v, nth_error a i = Some v -> isna v = true ->
                 nth_error y i = Some VNaN) /\
    (forall k n, In (k, n) counts -> n = fy_rows y k) /\
    nrows Run.combined = list_sum (map snd counts) + length (filter isna a) /\
    list_sum (map snd counts) <= nrows Run.combined /\
    (list_sum (map snd counts) = nrows Run.combined <->
     Forall (fun v => isna v = false) a).
Proof.
  assert (H : In (EToParquet OUTPUT_FILE Run.combined)
                 (fst (Run.main Sample.env1))).
  { apply (nth_error_In _ 28). vm_compute. reflexivity. }
  split; [exact H|].
  exact (grand_total_covers_null_dates Sample.Num Sample.na_values
           Sample.iso_date Sample.decimal Run.str_other Sample.env1
           OUTPUT_FILE Run.combined H).
Defined.

Arguments rows_lines {Num} t.
Arguments is_export {Num} e.

(** ** Sample runs for the further properties *)

Module Run2.

(** FY2020 holds a file with the header and no record. *)
Definition header_only : CsvFile := mkCsv Sample.hdr [].
Definition env_header_only : Env := Sample.env_of [("FY2020", header_only)].
Definition df_empty : DataFrame Sample.Num := Run.cleaned header_only.
Definition combined_empty : DataFrame Sample.Num :=
  merge_frames Sample.Num [df_empty].

(** The FY2017 directory with a second matching file after the first. *)
Definition env_two_matches : Env :=
  mkEnv (fun pattern =>
           if String.eqb pattern (csv_pattern "FY2017")
           then [Run.path_of "FY2017"; "backups/extracted/FY2017/zzz.csv"]
           else [])
        (fun path =>
           if String.eqb path (Run.path_of "FY2017") then Some Sample.fy2017
           else if String.eqb path "backups/extracted/FY2017/zzz.csv"
                then Some Sample.broken else None).

End Run2.

Lemma fiscal_year_monotone_witness :
  (year (mkTimestamp 2024 12 31) < year (mkTimestamp 2025 1 1) \/
   (year (mkTimestamp 2024 12 31) = year (mkTimestamp 2025 1 1) /\
    month (mkTimestamp 2024 12 31) <= month (mkTimestamp 2025 1 1)))%Z /\
  exists F1 F2,
    compute_fiscal_year (Num := Sample.Num)
      [VTimestamp (mkTimestamp 2024 12 31); VTimestamp (mkTimestamp 2025 1 1)]
      Sample.env1
    = ([], Ok [VInt F1; VInt F2]) /\
    (F1 <= F2)%Z.
Proof.
  assert (H : (year (mkTimestamp 2024 12 31) < year (mkTimestamp 2025 1 1) \/
               (year (mkTimestamp 2024 12 31) = year (mkTimestamp 2025 1 1) /\
                month (mkTimestamp 2024 12 31)
                <= month (mkTimestamp 2025 1 1)))%Z)
    by (left; simpl; lia).
  split; [exact H|].
  exact (fiscal_year_monotone Sample.Num (mkTimestamp 2024 12 31)
           (mkTimestamp 2025 1 1) Sample.env1 H).
Defined.

Lemma passthrough_columns_witness :
  Run.process_fy "FY2017" Sample.env1
  = ([Run.reading "FY2017"], Ok (Some Run.df2017)) /\
  exists path f,
    reads Sample.env1 "FY2017" path f /\
    forall canon src,
      In (canon, src) COLUMN_MAP ->
      ~ In canon [ "action_date"; "period_of_performance_start_date";
                   "award_amount"; "primary_place_of_performance_zip_5" ] ->
      dict_get canon (cols Run.df2017) = Some (Run.source_column f src) /\
      forall v, In v (Run.source_column f src) ->
                v = VNaN \/ exists s, v = VStr s.
Proof.
  split; [vm_compute; reflexivity|].
  apply (passthrough_columns Sample.Num Sample.na_values Sample.iso_date
           Sample.decimal Run.str_other Sample.env1 "FY2017"
           [Run.reading "FY2017"] Run.df2017).
  vm_compute; reflexivity.
Defined.



Lemma zip5_prefix_witness :
  Run.process_fy "FY2019" Sample.env1
  = ([Run.reading "FY2019"], Ok (Some Run.df2019)) /\
  exists path f z,
    reads Sample.env1 "FY2019" path f /\
    dict_get "primary_place_of_performance_zip_5" (cols Run.df2019) = Some z /\
    (forall i s s',
        nth_error (Run.source_column f "primary_place_of_performance_zip_4") i
        = Some (VStr s) ->
        nth_error z i = Some (VStr s') ->
        prefix s' s = true) /\
    (forall i s,
        nth_error (Run.source_column f "primary_place_of_performance_zip_4") i
        = Some (VStr s) ->
        String.length s <= 5 -> s <> "nan" ->
        nth_error z i = Some (VStr s)) /\
    (forall i,
        nth_error (Run.source_column f "primary_place_of_performance_zip_4") i
        = Some (VStr "02134") ->
        nth_error z i = Some (VStr "02134")).
Proof.
  split; [vm_compute; reflexivity|].
  apply (zip5_prefix Sample.Num Sample.na_values Sample.iso_date
           Sample.decimal Run.str_other Sample.env1 "FY2019"
           [Run.reading "FY2019"] Run.df2019).
  vm_compute; reflexivity.
Defined.

Lemma cleaned_column_order_witness :
  Run.process_fy "FY2017" Sample.env1
  = ([Run.reading "FY2017"], Ok (Some Run.df2017)) /\
  exists path f,
    reads Sample.env1 "FY2017" path f /\
    dict_keys (cols Run.df2017) =
    map canonical_name (filter (fun c => mem c USE_COLS) (uniq (header f)))
      ++ ["fiscal_year"].
Proof.
  split; [vm_compute; reflexivity|].
  apply (cleaned_column_order Sample.Num Sample.na_values Sample.iso_date
           Sample.decimal Run.str_other Sample.env1 "FY2017"
           [Run.reading "FY2017"] Run.df2017).
  vm_compute; reflexivity.
Defined.

Lemma first_match_only_witness :
  glob Sample.env1 (csv_pattern "FY2017") = [Run.path_of "FY2017"] /\
  glob Run2.env_two_matches (csv_pattern "FY2017")
  = [Run.path_of "FY2017"; "backups/extracted/FY2017/zzz.csv"] /\
  open_csv Sample.env1 (Run.path_of "FY2017")
  = open_csv Run2.env_two_matches (Run.path_of "FY2017") /\
  Run.process_fy "FY2017" Sample.env1
  = Run.process_fy "FY2017" Run2.env_two_matches.
Proof.
  split; [reflexivity|]. split; [reflexivity|]. split; [reflexivity|].
  apply (first_match_only Sample.Num Sample.na_values Sample.iso_date
           Sample.decimal Run.str_other Sample.env1 Run2.env_two_matches
           "FY2017" (Run.path_of "FY2017") []
           ["backups/extracted/FY2017/zzz.csv"]); reflexivity.
Defined.

Lemma reverse_dict_round_trip_witness :
  NoDup (map snd COLUMN_MAP) /\
  forall k v, In (k, v) COLUMN_MAP <-> dict_get v (reverse_dict COLUMN_MAP) = Some k.
Proof.
  assert (H : NoDup (map snd COLUMN_MAP)).
  { unfold COLUMN_MAP. simpl.
    repeat (constructor; [simpl; intuition discriminate|]). constructor. }
  split; [exact H|].
  exact (reverse_dict_round_trip COLUMN_MAP H).
Defined.

Lemma loop_stops_at_first_failure_witness :
  (forall l, In l ["FY2017"] ->
             forall e', snd (Run.process_fy l Sample.env_broken) <> Raise e') /\
  snd (Run.process_fy "FY2018" Sample.env_broken)
  = Raise (ValueError "Usecols do not match columns") /\
  forall acc,
    Run.collect_frames (["FY2017"] ++ "FY2018" :: ["FY2019"; "FY2020"]) acc
                       Sample.env_broken =
    (fst (Run.collect_frames ["FY2017"] acc Sample.env_broken)
       ++ EPrint (LProcessing "FY2018")
       :: fst (Run.process_fy "FY2018" Sample.env_broken),
     Raise (ValueError "Usecols do not match columns")).
Proof.
  assert (H1 : forall l, In l ["FY2017"] ->
                 forall e', snd (Run.process_fy l Sample.env_broken) <> Raise e').
  { intros l [<- | []] e'. vm_compute. discriminate. }
  assert (H2 : snd (Run.process_fy "FY2018" Sample.env_broken)
               = Raise (ValueError "Usecols do not match columns"))
    by (vm_compute; reflexivity).
  split; [exact H1|]. split; [exact H2|].
  exact (loop_stops_at_first_failure Sample.Num Sample.na_values Sample.iso_date
           Sample.decimal Run.str_other Sample.env_broken ["FY2017"] "FY2018"
           ["FY2019"; "FY2020"] _ H1 H2).
Defined.


Lemma rows_lines_add_up_witness :
  In (EToParquet OUTPUT_FILE Run.combined) (fst (Run.main Sample.env1)) /\
  rows_lines (fst (Run.main Sample.env1))
  = map nrows (Run.partition_frames Sample.env1 FY_FOLDERS) /\
  list_sum (rows_lines (fst (Run.main Sample.env1))) = nrows Run.combined /\
  In (EPrint (LTotalCombined (nrows Run.combined))) (fst (Run.main Sample.env1)).
Proof.
  assert (H : In (EToParquet OUTPUT_FILE Run.combined)
                 (fst (Run.main Sample.env1))).
  { apply (nth_error_In _ 28). vm_compute. reflexivity. }
  split; [exact H|].
  exact (rows_lines_add_up Sample.Num Sample.na_values Sample.iso_date
           Sample.decimal Run.str_other Sample.env1 OUTPUT_FILE Run.combined H).
Defined.

Lemma empty_export_summary_witness :
  In (EToParquet OUTPUT_FILE Run2.combined_empty)
     (fst (Run.main Run2.env_header_only)) /\
  nrows Run2.combined_empty = 0 /\
  exists pre,
    Run.main Run2.env_header_only =
    (pre ++ [ EToParquet OUTPUT_FILE Run2.combined_empty;
              EPrint (LExported OUTPUT_FILE) ]
         ++ summary_banner
         ++ [ EPrint (LTotal 0);
              EPrint (LMissing [2017; 2018; 2019; 2020; 2021;
                                2022; 2023; 2024; 2025]%Z);
              EPrint LDownloadHint ],
     Ok tt).
Proof.
  assert (H : In (EToParquet OUTPUT_FILE Run2.combined_empty)
                 (fst (Run.main Run2.env_header_only))).
  { apply (nth_error_In _ 27). vm_compute. reflexivity. }
  split; [exact H|]. split; [reflexivity|].
  exact (empty_export_summary Sample.Num Sample.na_values Sample.iso_date
           Sample.decimal Run.str_other Run2.env_header_only OUTPUT_FILE
           Run2.combined_empty H eq_refl).
Defined.
